(** * HealthMonitor: a shallow embedding of the self-healing monitor

    The monitor is the class [HealthMonitor] of the repository: periodic
    metric sampling, service and endpoint probes, alerting, automatic
    recovery, retention and the health report.

    Conventions of the embedding.
    - JavaScript numbers are rationals [Q] extended with [NaN]; timestamps
      and byte counts are integers [Z] (milliseconds, bytes).
    - The host (clock, random source, child processes, sockets, file system,
      HTTP) is an oracle [world], indexed by the number of host interactions
      the monitor has made so far ([tick]).
    - The clock is constant during one synchronous run and is advanced when an
      awaited operation completes.
    - Callbacks that the source hands to [exec] or [setTimeout] without
      awaiting them are queued in [pending] and run later, after the
      synchronous code that queued them.
    - Arrays that are shared between a record and a callback live in the
      store [arrays] and are referred to by their index. *)

From Stdlib Require Import ZArith QArith Qround String Ascii List Lia Lqa.
From stdpp Require Import base option list gmap strings pretty.

Import ListNotations.
Local Open Scope string_scope.

(** ** JavaScript values *)

Module JS.

(** A number: a rational or [NaN]. *)
Inductive number : Type :=
  | Num (q : Q)
  | NaN.

(** Truthiness of a number: [0] and [NaN] are falsy. *)
Definition truthy (n : number) : bool :=
  match n with
  | Num q => negb (Qeq_bool q 0)
  | NaN => false
  end.

(** [a > b]; every comparison with [NaN] is false. *)
Definition gt (a b : number) : bool :=
  match a, b with
  | Num x, Num y => negb (Qle_bool x y)
  | _, _ => false
  end.

Definition add (a b : number) : number :=
  match a, b with
  | Num x, Num y => Num (x + y)
  | _, _ => NaN
  end.

Definition sub (a b : number) : number :=
  match a, b with
  | Num x, Num y => Num (x - y)
  | _, _ => NaN
  end.

Definition mul (a b : number) : number :=
  match a, b with
  | Num x, Num y => Num (x * y)
  | _, _ => NaN
  end.

(** [a / b]. The monitor only divides non-negative counters, where a zero
    divisor comes with a zero dividend: [0 / 0] is [NaN]. *)
Definition div (a b : number) : number :=
  match a, b with
  | Num x, Num y => if Qeq_bool y 0 then NaN else Num (x / y)
  | _, _ => NaN
  end.

Definition of_Z (z : Z) : number := Num (inject_Z z).
Definition of_nat (n : nat) : number := Num (inject_Z (Z.of_nat n)).

(** [parseFloat(x.toFixed(2))]: the nearest multiple of 1/100, halves away
    from zero. *)
Definition round_half_away (q : Q) : Z :=
  if Qle_bool 0 q
  then Qfloor (q + (1 # 2))
  else (- Qfloor ((- q) + (1 # 2)))%Z.

Definition toFixed2 (n : number) : number :=
  match n with
  | Num q => Num (inject_Z (round_half_away (q * 100)) / 100)
  | NaN => NaN
  end.

(** *** Strings *)

Definition is_space (c : ascii) : bool :=
  let n := nat_of_ascii c in
  (n =? 32)%nat || ((9 <=? n)%nat && (n <=? 13)%nat).

Definition is_digit (c : ascii) : bool :=
  let n := nat_of_ascii c in (48 <=? n)%nat && (n <=? 57)%nat.

Definition digit_val (c : ascii) : Z := Z.of_nat (nat_of_ascii c) - 48.

Fixpoint drop_spaces (s : string) : string :=
  match s with
  | String c r => if is_space c then drop_spaces r else s
  | EmptyString => EmptyString
  end.

Definition rev_string (s : string) : string :=
  string_of_list_ascii (rev (list_ascii_of_string s)).

(** [s.trim()] *)
Definition trim (s : string) : string :=
  rev_string (drop_spaces (rev_string (drop_spaces s))).

(** [s.split(c)] for a one-character separator: the fields between the
    separators, empty ones included. *)
Fixpoint split_aux (sep : ascii) (s : string) (cur : string) : list string :=
  match s with
  | EmptyString => [rev_string cur]
  | String c r =>
      if Ascii.eqb c sep
      then rev_string cur :: split_aux sep r EmptyString
      else split_aux sep r (String c cur)
  end.

Definition split (sep : ascii) (s : string) : list string :=
  split_aux sep s EmptyString.

(** [s.split(/\s+/)]: the fields between maximal runs of white space; a
    leading or trailing run leaves an empty first or last field. *)
Fixpoint split_ws_aux (s : string) (cur : string) (in_run : bool) : list string :=
  match s with
  | EmptyString => [rev_string cur]
  | String c r =>
      if is_space c
      then if in_run
           then split_ws_aux r EmptyString true
           else rev_string cur :: split_ws_aux r EmptyString true
      else split_ws_aux r (String c cur) false
  end.

Definition split_ws (s : string) : list string :=
  split_ws_aux s EmptyString false.

Fixpoint join (sep : string) (l : list string) : string :=
  match l with
  | [] => EmptyString
  | [x] => x
  | x :: r => x ++ sep ++ join sep r
  end.

Fixpoint starts_with (p s : string) : bool :=
  match p, s with
  | EmptyString, _ => true
  | String a p', String b s' => Ascii.eqb a b && starts_with p' s'
  | String _ _, EmptyString => false
  end.

(** [s.includes(sub)] *)
Fixpoint includes (s sub : string) : bool :=
  starts_with sub s ||
  match s with
  | String _ r => includes r sub
  | EmptyString => false
  end.

(** [s.replace(c, '')] for a one-character pattern: the first occurrence is
    removed. *)
Fixpoint remove_first (c : ascii) (s : string) : string :=
  match s with
  | EmptyString => EmptyString
  | String a r => if Ascii.eqb a c then r else String a (remove_first c r)
  end.

(** The longest prefix of decimal digits, as its value and the number of
    digits read, and the rest of the string. *)
Fixpoint read_digits (s : string) (acc : Z) (n : nat) : Z * nat * string :=
  match s with
  | String c r =>
      if is_digit c then read_digits r (acc * 10 + digit_val c)%Z (S n)
      else (acc, n, s)
  | EmptyString => (acc, n, s)
  end.

Definition read_sign (s : string) : bool * string :=
  match s with
  | String "-" r => (true, r)
  | String "+" r => (false, r)
  | _ => (false, s)
  end.

(** [parseInt(s)] on decimal text: leading white space, an optional sign, the
    longest run of digits; [NaN] when there is no digit. (The command outputs
    the monitor reads are decimal; a [0x] prefix is not modelled.) *)
Definition parseInt (s : string) : number :=
  let '(neg, r) := read_sign (drop_spaces s) in
  let '(v, n, _) := read_digits r 0 0 in
  match n with
  | O => NaN
  | _ => of_Z (if neg then - v else v)
  end.

(** [parseFloat(s)] on decimal text without exponent: digits, then an
    optional fraction. *)
Definition parseFloat (s : string) : number :=
  let '(neg, r) := read_sign (drop_spaces s) in
  let '(v, n, r1) := read_digits r 0 0 in
  let '(f, k, _) :=
    match r1 with
    | String "." r2 => read_digits r2 0 0
    | _ => (0%Z, O, r1)
    end in
  match n, k with
  | O, O => NaN
  | _, _ =>
      let q := (inject_Z v + inject_Z f / inject_Z (10 ^ Z.of_nat k))%Q in
      Num (if neg then - q else q)
  end.

End JS.


(** ** Data model *)

Module HealthMonitor.

Inductive severity : Type := info | warning | critical.

(** The payload [data] of an alert, one shape per call site of
    [triggerAlert]. *)
Inductive alert_data : Type :=
  | UsageData (usage threshold : JS.number) (time : Z)
  | ServiceData (service : string) (time : Z)
  | ResponseTimeData (endpoint : string) (responseTime threshold : JS.number)
  | StatusData (endpoint : string) (status : Z) (time : Z)
  | FailureData (endpoint : string) (error : string) (time : Z).

(** An alert. [alert_id] stands for the text [alert_<Date.now()>_<random>];
    [alert_timestamp] is the instant that the ISO text of the source denotes
    ([new Date(a.timestamp).getTime()] gives it back). *)
Record alert : Type := {
  alert_id : Z * string;
  alert_type : string;
  alert_severity : severity;
  alert_payload : alert_data;
  alert_timestamp : Z;
  acknowledged : bool
}.

Inductive recovery_action : Type :=
  | service_restart | memory_cleanup | disk_cleanup | application_restart.

(** An entry of [recoveryActions]. [rec_actions] is the reference to the
    shared array [cleanupActions] of a disk cleanup. *)
Record recovery_record : Type := {
  action : recovery_action;
  rec_service : option string;
  rec_timestamp : Z;
  rec_actions : option nat;
  success : bool;
  rec_error : option string
}.

Record cpu_sample : Type := {
  cpu_timestamp : Z;
  cpu_usage : JS.number;
  cpu_cores : nat
}.

(** The text that [formatBytes] builds, as its rounded value and its unit. *)
Definition formatted : Type := JS.number * string.

Record memory_sample : Type := {
  mem_timestamp : Z;
  mem_usage : JS.number;
  mem_total : formatted;
  mem_used : formatted;
  mem_free : formatted
}.

Record disk_sample : Type := {
  disk_timestamp : Z;
  disk_usage : JS.number;
  disk_total : option string;
  disk_used : option string;
  disk_available : option string
}.

Record response : Type := {
  resp_timestamp : Z;
  resp_time : Q;
  resp_status : Z
}.

Record error_entry : Type := {
  err_timestamp : Z;
  err_error : string
}.

Record metrics_store : Type := {
  cpu : list cpu_sample;
  memory : list memory_sample;
  disk : list disk_sample;
  responseTimes : gmap string (list response);
  errors : gmap string (list error_entry);
  uptime : Z
}.

Record thresholds : Type := {
  th_cpu : Q;
  th_memory : Q;
  th_disk : Q;
  th_responseTime : Q;
  th_errorRate : Q
}.

(** A service: [command] or [port] is absent ([undefined]) when the literal
    does not give it. *)
Record service : Type := {
  name : string;
  command : option string;
  port : option Z;
  restart : string
}.

Record endpoint : Type := {
  url : string;
  ep_name : string
}.

Record configuration : Type := {
  checkInterval : Z;
  alertThresholds : thresholds;
  services : list service;
  endpoints : list endpoint
}.

(** ** The host *)

Inductive exec_outcome : Type :=
  | ExecOk (stdout : string)
  | ExecError (message : string).

Inductive http_outcome : Type :=
  | HttpResponse (status : Z) (elapsed : Q)
  | HttpFailure (message : string).

(** [cpu.times] of [os.cpus()]. *)
Record cpu_times : Type := {
  user : Z;
  nice : Z;
  sys : Z;
  idle : Z;
  irq : Z
}.

(** What the host answers at the n-th interaction. *)
Record world : Type := {
  exec : nat -> string -> exec_outcome;
  finished_at : nat -> Z;
  connect : nat -> Z -> bool;
  existsSync : nat -> string -> bool;
  random : nat -> string;
  cpus : nat -> list cpu_times;
  totalmem : nat -> Z;
  freemem : nat -> Z;
  http_get : nat -> string -> http_outcome;
  status_message : Z -> string;
  app_dir : string
}.

(** ** The state of the monitor *)

(** Callbacks of [exec] that run after the code that registered them: each
    receives the error of its command, if any. *)
Inductive callback : Type :=
  | PushCleanupAction (arr : nat) (tag : string)
  | LogCacheCleared.

(** [OnExec n cmd cb]: the callback of the [exec] of [cmd] started at
    interaction [n]. [OnTimeout due s]: the verification that [restartService]
    schedules for service [s]. *)
Inductive task : Type :=
  | OnExec (started : nat) (cmd : string) (cb : callback)
  | OnTimeout (due : Z) (s : service).

Record monitor : Type := {
  config : configuration;
  metrics : metrics_store;
  alerts : list alert;
  recoveryActions : list recovery_record;
  arrays : list (list string);
  pending : list task;
  now : Z;
  tick : nat
}.

Definition set_metrics (x : metrics_store) (m : monitor) : monitor :=
  {| config := config m; metrics := x; alerts := alerts m;
     recoveryActions := recoveryActions m; arrays := arrays m;
     pending := pending m; now := now m; tick := tick m |}.

Definition set_alerts (x : list alert) (m : monitor) : monitor :=
  {| config := config m; metrics := metrics m; alerts := x;
     recoveryActions := recoveryActions m; arrays := arrays m;
     pending := pending m; now := now m; tick := tick m |}.

Definition set_recoveryActions (x : list recovery_record) (m : monitor) : monitor :=
  {| config := config m; metrics := metrics m; alerts := alerts m;
     recoveryActions := x; arrays := arrays m;
     pending := pending m; now := now m; tick := tick m |}.

Definition set_arrays (x : list (list string)) (m : monitor) : monitor :=
  {| config := config m; metrics := metrics m; alerts := alerts m;
     recoveryActions := recoveryActions m; arrays := x;
     pending := pending m; now := now m; tick := tick m |}.

Definition set_pending (x : list task) (m : monitor) : monitor :=
  {| config := config m; metrics := metrics m; alerts := alerts m;
     recoveryActions := recoveryActions m; arrays := arrays m;
     pending := x; now := now m; tick := tick m |}.

Definition set_now (x : Z) (m : monitor) : monitor :=
  {| config := config m; metrics := metrics m; alerts := alerts m;
     recoveryActions := recoveryActions m; arrays := arrays m;
     pending := pending m; now := x; tick := tick m |}.

Definition set_tick (x : nat) (m : monitor) : monitor :=
  {| config := config m; metrics := metrics m; alerts := alerts m;
     recoveryActions := recoveryActions m; arrays := arrays m;
     pending := pending m; now := now m; tick := x |}.

Definition set_cpu (x : list cpu_sample) (s : metrics_store) : metrics_store :=
  {| cpu := x; memory := memory s; disk := disk s;
     responseTimes := responseTimes s; errors := errors s; uptime := uptime s |}.

Definition set_memory (x : list memory_sample) (s : metrics_store) : metrics_store :=
  {| cpu := cpu s; memory := x; disk := disk s;
     responseTimes := responseTimes s; errors := errors s; uptime := uptime s |}.

Definition set_disk (x : list disk_sample) (s : metrics_store) : metrics_store :=
  {| cpu := cpu s; memory := memory s; disk := x;
     responseTimes := responseTimes s; errors := errors s; uptime := uptime s |}.

Definition set_responseTimes (x : gmap string (list response)) (s : metrics_store) : metrics_store :=
  {| cpu := cpu s; memory := memory s; disk := disk s;
     responseTimes := x; errors := errors s; uptime := uptime s |}.

Definition set_errors (x : gmap string (list error_entry)) (s : metrics_store) : metrics_store :=
  {| cpu := cpu s; memory := memory s; disk := disk s;
     responseTimes := responseTimes s; errors := x; uptime := uptime s |}.

(** The state that the constructor builds at clock [t]. *)
Definition default_config : configuration :=
  {| checkInterval := 60000;
     alertThresholds :=
       {| th_cpu := 80; th_memory := 85; th_disk := 90;
          th_responseTime := 5000; th_errorRate := 5 |};
     services :=
       [ {| name := "nginx"; command := Some "nginx -t"; port := None;
            restart := "systemctl restart nginx" |};
         {| name := "mongodb"; command := Some "mongod --version"; port := None;
            restart := "systemctl restart mongodb" |};
         {| name := "redis"; command := Some "redis-cli ping"; port := None;
            restart := "systemctl restart redis" |};
         {| name := "node_backend"; command := None; port := Some 5000%Z;
            restart := "pm2 restart jobai-backend" |};
         {| name := "node_frontend"; command := None; port := Some 3000%Z;
            restart := "pm2 restart jobai-frontend" |} ];
     endpoints :=
       [ {| url := "http://localhost:5000/health"; ep_name := "Backend API" |};
         {| url := "http://localhost:3000"; ep_name := "Frontend" |};
         {| url := "http://localhost/api/health"; ep_name := "Nginx Proxy" |} ] |}.

Definition constructor (t : Z) : monitor :=
  {| config := default_config;
     metrics := {| cpu := []; memory := []; disk := [];
                   responseTimes := ∅; errors := ∅; uptime := t |};
     alerts := [];
     recoveryActions := [];
     arrays := [];
     pending := [];
     now := t;
     tick := 0 |}.

(** ** Operations *)

(** What a check resolves with. *)
Record interface : Type := {
  if_name : string;
  mtu : string;
  rx_ok : JS.number;
  rx_err : JS.number;
  rx_drp : JS.number;
  rx_ovr : JS.number;
  tx_ok : JS.number;
  tx_err : JS.number;
  tx_drp : JS.number;
  tx_ovr : JS.number
}.

Record process : Type := {
  p_user : string;
  pid : JS.number;
  p_cpu : JS.number;
  p_mem : JS.number;
  p_command : string
}.

Inductive check_result : Type :=
  | CpuResult (usage : JS.number) (cores : nat)
  | MemoryResult (usage : JS.number) (total used free : Z)
  | DiskResult (usage : JS.number) (total used available : option string)
  | NetworkResult (interfaces : list interface)
  | ProcessResult (total : nat) (appProcesses : list process).

(** How the promise of a check ends. [Uncaught]: the callback of [exec]
    threw, the promise never settles and the exception reaches the top of
    the process. *)
Inductive settled : Type :=
  | Fulfilled (value : check_result)
  | Rejected (reason : string)
  | Uncaught.

Record notification : Type := {
  alertId : Z * string;
  notified_type : string;
  sent : Z;
  method : string
}.

Definition newline : ascii := ascii_of_nat 10.
Definition dquote : string := String (ascii_of_nat 34) EmptyString.

Definition units : list string := ["B"; "KB"; "MB"; "GB"; "TB"].

Fixpoint formatBytes_loop (fuel : nat) (value : Q) (unitIndex : nat) : Q * nat :=
  match fuel with
  | O => (value, unitIndex)
  | S fuel' =>
      if Qle_bool 1024 value && (unitIndex <? length units - 1)%nat
      then formatBytes_loop fuel' (value / 1024) (S unitIndex)
      else (value, unitIndex)
  end.

(** The loop runs at most [units.length - 1] times. *)
Definition formatBytes (bytes : Z) : formatted :=
  let '(value, unitIndex) := formatBytes_loop (length units - 1) (inject_Z bytes) 0 in
  (JS.toFixed2 (JS.Num value), default EmptyString (units !! unitIndex)).

Definition severityMap : gmap string severity :=
  list_to_map
    [ ("HIGH_CPU", warning);
      ("HIGH_MEMORY", warning);
      ("HIGH_DISK", critical);
      ("SERVICE_DOWN", critical);
      ("SERVICE_RESTART_FAILED", critical);
      ("ENDPOINT_DOWN", critical);
      ("ENDPOINT_ERROR", warning);
      ("HIGH_RESPONSE_TIME", warning) ].

(** [severityMap[type] || 'info']: the object literal is read as the finite
    map of its own eight properties, and every value of it is truthy. *)
Definition getAlertSeverity (type : string) : severity :=
  default info (severityMap !! type).

(** The [usage] property of a check result, [None] when the object has none. *)
Definition usage_of (r : check_result) : option JS.number :=
  match r with
  | CpuResult u _ => Some u
  | MemoryResult u _ _ _ => Some u
  | DiskResult u _ _ _ => Some u
  | NetworkResult _ => None
  | ProcessResult _ _ => None
  end.

(** [metrics.usage && metrics.usage > t] *)
Definition usage_above (u : option JS.number) (t : Q) : bool :=
  match u with
  | Some n => JS.truthy n && JS.gt n (JS.Num t)
  | None => false
  end.

Definition truthy_string (s : option string) : option string :=
  match s with
  | Some EmptyString => None
  | _ => s
  end.

Definition truthy_port (p : option Z) : option Z :=
  match p with
  | Some 0%Z => None
  | _ => p
  end.

Definition sum_times (c : cpu_times) : Z :=
  (user c + nice c + sys c + idle c + irq c)%Z.

Definition parse_interface (line : string) : option interface :=
  let parts := JS.split_ws line in
  match parts with
  | p0 :: p1 :: p2 :: p3 :: p4 :: p5 :: p6 :: p7 :: p8 :: p9 :: _ =>
      Some {| if_name := p0; mtu := p1;
              rx_ok := JS.parseInt p2; rx_err := JS.parseInt p3;
              rx_drp := JS.parseInt p4; rx_ovr := JS.parseInt p5;
              tx_ok := JS.parseInt p6; tx_err := JS.parseInt p7;
              tx_drp := JS.parseInt p8; tx_ovr := JS.parseInt p9 |}
  | _ => None
  end.

Definition parse_process (line : string) : option process :=
  let parts := JS.split_ws line in
  match parts with
  | p0 :: p1 :: p2 :: p3 :: _ =>
      if (11 <=? length parts)%nat
      then Some {| p_user := p0; pid := JS.parseInt p1;
                   p_cpu := JS.parseFloat p2; p_mem := JS.parseFloat p3;
                   p_command := JS.join " " (drop 10 parts) |}
      else None
  | _ => None
  end.

Definition is_app_process (p : process) : bool :=
  JS.includes (p_command p) "node" || JS.includes (p_command p) "nginx" ||
  JS.includes (p_command p) "mongod" || JS.includes (p_command p) "redis".

#[global] Instance severity_eq_dec : EqDecision severity.
Proof. solve_decision. Defined.

#[global] Instance recovery_action_eq_dec : EqDecision recovery_action.
Proof. solve_decision. Defined.

Definition acknowledge (a : alert) : alert :=
  {| alert_id := alert_id a; alert_type := alert_type a;
     alert_severity := alert_severity a; alert_payload := alert_payload a;
     alert_timestamp := alert_timestamp a; acknowledged := true |}.

(** The test of the filter of [attemptAutoRecovery], at clock [t]. *)
Definition needs_recovery (t : Z) (a : alert) : bool :=
  bool_decide (alert_severity a = critical) &&
  negb (acknowledged a) &&
  bool_decide (300000 < t - alert_timestamp a)%Z.

(** The positions, from [i] on, of the elements of an array that pass a
    test: the references that [filter] copies into its result. *)
Fixpoint select_from {A : Type} (p : A -> bool) (i : nat) (l : list A) : list nat :=
  match l with
  | [] => []
  | a :: r => if p a then i :: select_from p (S i) r else select_from p (S i) r
  end.

Definition sum_usage (l : list JS.number) : JS.number :=
  foldl JS.add (JS.Num 0) l.

(** [l.length > 0 ? l.reduce((sum, m) => sum + m.usage, 0) / l.length : 0] *)
Definition average (l : list JS.number) : JS.number :=
  match l with
  | [] => JS.Num 0
  | _ => JS.div (sum_usage l) (JS.of_nat (length l))
  end.

(** [l.slice(-n)] *)
Definition slice_last {A : Type} (n : nat) (l : list A) : list A :=
  drop (length l - n) l.

(** [(successful / recentResponses.length) * 100] *)
Definition availability (recentResponses : list response) : Q :=
  let successful := length (filter (fun r => (resp_status r < 400)%Z) recentResponses) in
  (inject_Z (Z.of_nat successful) / inject_Z (Z.of_nat (length recentResponses))) * 100.

Record recommendation : Type := {
  rec_type : string;
  priority : string;
  message : string;
  rec_action : string
}.

Record usage_report : Type := {
  current : JS.number;
  average_usage : JS.number;
  threshold : Q
}.

Record report : Type := {
  generated : Z;
  system_cpu : usage_report;
  system_memory : usage_report;
  system_disk : usage_report;
  report_endpoints : gmap string Q;
  alerts_total : nat;
  alerts_lastHour : nat;
  alerts_critical : nat;
  alerts_unacknowledged : nat;
  recovery_totalActions : nat;
  recovery_lastHour : nat;
  recovery_successful : nat;
  recommendations : list recommendation
}.

Section Operations.

Variable w : world.

(** One answer of the host that does not take time. *)
Definition step (m : monitor) : monitor := set_tick (S (tick m)) m.

(** An awaited operation completes: the clock is the one of its completion. *)
Definition resume (m : monitor) : monitor :=
  step (set_now (finished_at w (tick m)) m).

(** [await new Promise(resolve => setTimeout(resolve, d))] *)
Definition sleep (d : Z) (m : monitor) : monitor :=
  step (set_now (Z.max (now m + d) (finished_at w (tick m))) m).

Definition push_recovery (r : recovery_record) (m : monitor) : monitor :=
  set_recoveryActions (recoveryActions m ++ [r]) m.

Definition push_pending (k : task) (m : monitor) : monitor :=
  set_pending (pending m ++ [k]) m.

(** The notification is only logged. *)
Definition sendAlertNotification (a : alert) (m : monitor) : notification :=
  {| alertId := alert_id a; notified_type := alert_type a;
     sent := now m; method := "console" |}.

Definition triggerAlert (type : string) (data : alert_data) (m : monitor)
  : alert * monitor :=
  let a := {| alert_id := (now m, random w (tick m));
              alert_type := type;
              alert_severity := getAlertSeverity type;
              alert_payload := data;
              alert_timestamp := now m;
              acknowledged := false |} in
  let m1 := step (set_alerts (alerts m ++ [a]) m) in
  let _ := sendAlertNotification a m1 in
  (a, m1).

(** *** Metric checks *)

Definition checkCPU (m : monitor) : settled * monitor :=
  let cs := cpus w (tick m) in
  let totalTick := foldl (fun acc c => (acc + sum_times c)%Z) 0%Z cs in
  let totalIdle := foldl (fun acc c => (acc + idle c)%Z) 0%Z cs in
  let idle := JS.div (JS.of_Z totalIdle) (JS.of_nat (length cs)) in
  let total := JS.div (JS.of_Z totalTick) (JS.of_nat (length cs)) in
  let usage := JS.mul (JS.div (JS.sub total idle) total) (JS.Num 100) in
  let m1 := step m in
  let sample := {| cpu_timestamp := now m1;
                   cpu_usage := JS.toFixed2 usage;
                   cpu_cores := length cs |} in
  (Fulfilled (CpuResult usage (length cs)),
   set_metrics (set_cpu (cpu (metrics m1) ++ [sample]) (metrics m1)) m1).

Definition checkMemory (m : monitor) : settled * monitor :=
  let total := totalmem w (tick m) in
  let free := freemem w (tick m) in
  let used := (total - free)%Z in
  let usage := JS.mul (JS.div (JS.of_Z used) (JS.of_Z total)) (JS.Num 100) in
  let m1 := step m in
  let sample := {| mem_timestamp := now m1;
                   mem_usage := JS.toFixed2 usage;
                   mem_total := formatBytes total;
                   mem_used := formatBytes used;
                   mem_free := formatBytes free |} in
  (Fulfilled (MemoryResult usage total used free),
   set_metrics (set_memory (memory (metrics m1) ++ [sample]) (metrics m1)) m1).

(** [parts[4]] is absent on a line of fewer than five fields: [replace] on
    [undefined] throws inside the callback. *)
Definition checkDisk (m : monitor) : settled * monitor :=
  match exec w (tick m) "df -h /" with
  | ExecError msg => (Rejected msg, resume m)
  | ExecOk stdout =>
      let m1 := resume m in
      let lines := JS.split newline (JS.trim stdout) in
      match lines !! 1%nat with
      | Some line =>
          let parts := JS.split_ws line in
          match parts !! 4%nat with
          | Some p4 =>
              let usage := JS.parseInt (JS.remove_first "%" p4) in
              let sample := {| disk_timestamp := now m1;
                               disk_usage := usage;
                               disk_total := parts !! 1%nat;
                               disk_used := parts !! 2%nat;
                               disk_available := parts !! 3%nat |} in
              (Fulfilled (DiskResult usage (parts !! 1%nat) (parts !! 2%nat) (parts !! 3%nat)),
               set_metrics (set_disk (disk (metrics m1) ++ [sample]) (metrics m1)) m1)
          | None => (Uncaught, m1)
          end
      | None => (Rejected "Could not parse disk usage", m1)
      end
  end.

Definition checkNetwork (m : monitor) : settled * monitor :=
  match exec w (tick m) "netstat -i" with
  | ExecError msg => (Rejected msg, resume m)
  | ExecOk stdout =>
      let lines := JS.split newline (JS.trim stdout) in
      let interfaces := omap parse_interface (drop 1 lines) in
      (Fulfilled (NetworkResult interfaces), resume m)
  end.

Definition checkProcesses (m : monitor) : settled * monitor :=
  match exec w (tick m) "ps aux" with
  | ExecError msg => (Rejected msg, resume m)
  | ExecOk stdout =>
      let lines := JS.split newline (JS.trim stdout) in
      let processes := omap parse_process (drop 1 lines) in
      let appProcesses := filter (fun p => is_app_process p) processes in
      (Fulfilled (ProcessResult (length processes) appProcesses), resume m)
  end.

(** *** Recovery actions *)

(** [await this.executeCommand(command)]: the outcome of the command, once it
    has completed. *)
Definition executeCommand (cmd : string) (m : monitor) : exec_outcome * monitor :=
  (exec w (tick m) cmd, resume m).

(** [exec(cmd, callback)] without waiting: the callback is queued. *)
Definition start_exec (cmd : string) (cb : callback) (m : monitor) : monitor :=
  step (push_pending (OnExec (tick m) cmd cb) m).

Definition find_command (dir pattern days : string) : string :=
  "find " ++ dir ++ " -name " ++ dquote ++ pattern ++ dquote ++
  " -mtime +" ++ days ++ " -delete".

(** The body has no [await]: it runs to its end when it is called. The
    [catch] branch is not reached, no host call of the [try] block throws. *)
Definition cleanupMemory (m : monitor) : monitor :=
  let cacheDir := app_dir w ++ "/cache" in
  let m1 :=
    if existsSync w (tick m) cacheDir
    then start_exec ("rm -rf " ++ cacheDir ++ "/*") LogCacheCleared (step m)
    else step m in
  push_recovery {| action := memory_cleanup; rec_service := None;
                   rec_timestamp := now m1; rec_actions := None;
                   success := true; rec_error := None |} m1.

(** [cleanupActions] is a fresh array of the store; the four callbacks hold
    its reference and so does the record. [success] is computed when the
    record is built. *)
Definition cleanupDisk (m : monitor) : monitor :=
  let cleanupActions := length (arrays m) in
  let m0 := set_arrays (arrays m ++ [[]]) m in
  let logDir := app_dir w ++ "/logs" in
  let m1 :=
    if existsSync w (tick m0) logDir
    then start_exec (find_command logDir "*.log" "7")
           (PushCleanupAction cleanupActions "logs_cleaned") (step m0)
    else step m0 in
  let tempDir := "/tmp" in
  let m2 :=
    start_exec (find_command tempDir "jobai_*" "1")
      (PushCleanupAction cleanupActions "temp_files_cleaned") m1 in
  let backupDir := app_dir w ++ "/backups" in
  let m3 :=
    if existsSync w (tick m2) backupDir
    then start_exec (find_command backupDir "*.tar.gz" "7")
           (PushCleanupAction cleanupActions "old_backups_cleaned") (step m2)
    else step m2 in
  let m4 :=
    start_exec "npm cache clean --force"
      (PushCleanupAction cleanupActions "npm_cache_cleaned") m3 in
  push_recovery
    {| action := disk_cleanup; rec_service := None;
       rec_timestamp := now m4; rec_actions := Some cleanupActions;
       success := bool_decide (0 < length (default [] (arrays m4 !! cleanupActions)))%nat;
       rec_error := None |} m4.

Definition restartApplication (m : monitor) : monitor :=
  let failed msg m' :=
    push_recovery {| action := application_restart; rec_service := None;
                     rec_timestamp := now m'; rec_actions := None;
                     success := false; rec_error := Some msg |} m' in
  match executeCommand "pm2 stop all" m with
  | (ExecError msg, m1) => failed msg m1
  | (ExecOk _, m1) =>
      match executeCommand "pm2 start all" (sleep 5000 m1) with
      | (ExecError msg, m2) => failed msg m2
      | (ExecOk _, m2) =>
          push_recovery {| action := application_restart; rec_service := None;
                           rec_timestamp := now m2; rec_actions := None;
                           success := true; rec_error := None |} m2
      end
  end.

(** *** Services *)

Definition checkServiceCommand (cmd : string) (m : monitor) : bool * monitor :=
  (match exec w (tick m) cmd with ExecOk _ => true | ExecError _ => false end,
   resume m).

Definition checkServicePort (p : Z) (m : monitor) : bool * monitor :=
  (connect w (tick m) p, resume m).

(** The probe that [checkServices] and the verification of [restartService]
    both write out: the command when there is one, else the port, else
    unhealthy. *)
Definition probe (s : service) (m : monitor) : bool * monitor :=
  match truthy_string (command s) with
  | Some cmd => checkServiceCommand cmd m
  | None =>
      match truthy_port (port s) with
      | Some p => checkServicePort p m
      | None => (false, m)
      end
  end.

Definition restartService (s : service) (m : monitor) : monitor :=
  match executeCommand (restart s) m with
  | (ExecOk _, m1) =>
      let m2 :=
        push_recovery {| action := service_restart; rec_service := Some (name s);
                         rec_timestamp := now m1; rec_actions := None;
                         success := true; rec_error := None |} m1 in
      push_pending (OnTimeout (now m2 + 10000) s) m2
  | (ExecError msg, m1) =>
      push_recovery {| action := service_restart; rec_service := Some (name s);
                       rec_timestamp := now m1; rec_actions := None;
                       success := false; rec_error := Some msg |} m1
  end.

(** The body of the loop of [checkServices]. *)
Definition checkService (s : service) (m : monitor) : monitor :=
  let '(isHealthy, m1) := probe s m in
  if isHealthy then m1
  else
    let '(_, m2) := triggerAlert "SERVICE_DOWN" (ServiceData (name s) (now m1)) m1 in
    restartService s m2.

Definition checkServices (m : monitor) : monitor :=
  foldl (fun acc s => checkService s acc) m (services (config m)).

(** The callback that [restartService] hands to [setTimeout]. *)
Definition verifyRestart (s : service) (m : monitor) : monitor :=
  let '(isHealthy, m1) := probe s m in
  if isHealthy then m1
  else snd (triggerAlert "SERVICE_RESTART_FAILED" (ServiceData (name s) (now m1)) m1).

(** *** Endpoints *)

(** [axios.get] with [validateStatus: status < 500]: a response of status 500
    or more is thrown as an error. *)
Definition axios_get (u : string) (m : monitor) : http_outcome :=
  match http_get w (tick m) u with
  | HttpResponse status elapsed =>
      if decide (status < 500)%Z then HttpResponse status elapsed
      else HttpFailure (status_message w status)
  | HttpFailure msg => HttpFailure msg
  end.

Definition checkEndpoint (e : endpoint) (m : monitor) : monitor :=
  match axios_get (url e) m with
  | HttpResponse status responseTime =>
      let m1 := resume m in
      let ms := metrics m1 in
      let entry := {| resp_timestamp := now m1; resp_time := responseTime;
                      resp_status := status |} in
      let stored := (default [] (responseTimes ms !! ep_name e) ++ [entry])%list in
      let m2 := set_metrics (set_responseTimes (<[ep_name e := stored]> (responseTimes ms)) ms) m1 in
      let limit := th_responseTime (alertThresholds (config m2)) in
      let m3 :=
        if JS.gt (JS.Num responseTime) (JS.Num limit)
        then snd (triggerAlert "HIGH_RESPONSE_TIME"
                    (ResponseTimeData (ep_name e) (JS.Num responseTime) (JS.Num limit)) m2)
        else m2 in
      if decide (400 <= status)%Z
      then snd (triggerAlert "ENDPOINT_ERROR" (StatusData (ep_name e) status (now m3)) m3)
      else m3
  | HttpFailure msg =>
      let m1 := resume m in
      let ms := metrics m1 in
      let entry := {| err_timestamp := now m1; err_error := msg |} in
      let stored := (default [] (errors ms !! ep_name e) ++ [entry])%list in
      let m2 := set_metrics (set_errors (<[ep_name e := stored]> (errors ms)) ms) m1 in
      snd (triggerAlert "ENDPOINT_DOWN" (FailureData (ep_name e) msg (now m2)) m2)
  end.

Definition checkEndpoints (m : monitor) : monitor :=
  foldl (fun acc e => checkEndpoint e acc) m (endpoints (config m)).

(** *** Alert evaluation *)

Definition analyzeMetrics (r : check_result) (m : monitor) : monitor :=
  let th := alertThresholds (config m) in
  let usage := default JS.NaN (usage_of r) in
  let m1 :=
    if usage_above (usage_of r) (th_cpu th)
    then snd (triggerAlert "HIGH_CPU" (UsageData usage (JS.Num (th_cpu th)) (now m)) m)
    else m in
  let m2 :=
    if usage_above (usage_of r) (th_memory th)
    then cleanupMemory
           (snd (triggerAlert "HIGH_MEMORY" (UsageData usage (JS.Num (th_memory th)) (now m1)) m1))
    else m1 in
  if usage_above (usage_of r) (th_disk th)
  then cleanupDisk
         (snd (triggerAlert "HIGH_DISK" (UsageData usage (JS.Num (th_disk th)) (now m2)) m2))
  else m2.

(** *** Proactive recovery *)

Definition recover (type : string) (m : monitor) : monitor :=
  if String.eqb type "HIGH_DISK" then cleanupDisk m
  else if String.eqb type "HIGH_MEMORY" then cleanupMemory m
  else if String.eqb type "SERVICE_DOWN" then m
  else if String.eqb type "ENDPOINT_DOWN" then restartApplication m
  else m.

(** The loop over [criticalAlerts]: the array holds references to the alerts
    of [this.alerts], here their positions, so that setting [acknowledged]
    changes the alert of the log. *)
Fixpoint recover_all (refs : list nat) (m : monitor) : monitor :=
  match refs with
  | [] => m
  | i :: rest =>
      match alerts m !! i with
      | Some a =>
          let m1 := recover (alert_type a) m in
          recover_all rest (set_alerts (alter acknowledge i (alerts m1)) m1)
      | None => recover_all rest m
      end
  end.

Definition attemptAutoRecovery (m : monitor) : monitor :=
  let criticalAlerts := select_from (needs_recovery (now m)) 0 (alerts m) in
  recover_all criticalAlerts m.

(** *** The system check *)

Definition analyzeSettled (m : monitor) (r : settled) : monitor :=
  match r with
  | Fulfilled value => analyzeMetrics value m
  | _ => m
  end.

Definition is_uncaught (r : settled) : bool :=
  match r with Uncaught => true | _ => false end.

(** The five checks, the evaluation of the settled ones in their order, the
    proactive recovery. [None]: a callback threw and the process stopped.
    [logStatus] reads the state and appends a line to the log file of the
    day; it is outside the model. *)
Definition performSystemCheck (m : monitor) : option monitor :=
  let '(r1, m1) := checkCPU m in
  let '(r2, m2) := checkMemory m1 in
  let '(r3, m3) := checkDisk m2 in
  let '(r4, m4) := checkNetwork m3 in
  let '(r5, m5) := checkProcesses m4 in
  let results := [r1; r2; r3; r4; r5] in
  if existsb is_uncaught results then None
  else Some (attemptAutoRecovery (foldl analyzeSettled m5 results)).

(** *** Callbacks and timers *)

Definition run_callback (error : bool) (cb : callback) (m : monitor) : monitor :=
  match cb with
  | PushCleanupAction arr tag =>
      if error then m
      else set_arrays (alter (fun a => a ++ [tag])%list arr (arrays m)) m
  | LogCacheCleared => m
  end.

Definition run_task (k : task) (m : monitor) : monitor :=
  match k with
  | OnExec started cmd cb =>
      run_callback
        (match exec w started cmd with ExecOk _ => false | ExecError _ => true end)
        cb m
  | OnTimeout _ s => verifyRestart s m
  end.

(** A callback of [exec] is ready once its command has ended (here: at once),
    a timer once its delay has passed. *)
Definition ready (t : Z) (k : task) : bool :=
  match k with
  | OnExec _ _ _ => true
  | OnTimeout due _ => bool_decide (due <= t)%Z
  end.

(** The turn of the event loop at clock [t]: the ready tasks run in the order
    in which they were queued, the others stay queued. *)
Definition run_pending (t : Z) (m : monitor) : monitor :=
  foldl (fun acc k => if ready t k then run_task k (set_now t acc) else push_pending k acc)
        (set_pending [] (set_now t m)) (pending m).

(** *** Retention *)

Definition cleanupOldMetrics (m : monitor) : monitor :=
  let oneHourAgo := (now m - 3600000)%Z in
  let oneDayAgo := (now m - 86400000)%Z in
  let ms := metrics m in
  let ms1 := set_cpu (filter (fun x => (oneHourAgo < cpu_timestamp x)%Z) (cpu ms)) ms in
  let ms2 := set_memory (filter (fun x => (oneHourAgo < mem_timestamp x)%Z) (memory ms1)) ms1 in
  let ms3 := set_disk (filter (fun x => (oneHourAgo < disk_timestamp x)%Z) (disk ms2)) ms2 in
  let m1 := set_metrics ms3 m in
  let m2 := set_alerts (filter (fun a => (oneDayAgo < alert_timestamp a)%Z) (alerts m1)) m1 in
  let sevenDaysAgo := (now m2 - 604800000)%Z in
  set_recoveryActions
    (filter (fun r => (sevenDaysAgo < rec_timestamp r)%Z) (recoveryActions m2)) m2.

(** *** The report *)

Definition generateRecommendations (m : monitor) : list recommendation :=
  let avgCPU := average (cpu_usage <$> slice_last 10 (cpu (metrics m))) in
  let avgMemory := average (mem_usage <$> slice_last 10 (memory (metrics m))) in
  let avgDisk := average (disk_usage <$> slice_last 10 (disk (metrics m))) in
  let recentAlerts := filter (fun a => (now m - alert_timestamp a < 3600000)%Z) (alerts m) in
  (if JS.gt avgCPU (JS.Num 70)
   then [ {| rec_type := "performance"; priority := "high";
             message := "High CPU usage detected. Consider optimizing code or scaling resources.";
             rec_action := "Review application performance and consider adding more CPU resources." |} ]
   else []) ++
  (if JS.gt avgMemory (JS.Num 75)
   then [ {| rec_type := "performance"; priority := "high";
             message := "High memory usage detected. Check for memory leaks.";
             rec_action := "Run memory profiling and optimize application memory usage." |} ]
   else []) ++
  (if JS.gt avgDisk (JS.Num 85)
   then [ {| rec_type := "storage"; priority := "critical";
             message := "Disk space running low. Cleanup required.";
             rec_action := "Implement automatic cleanup of old logs and temporary files." |} ]
   else []) ++
  (if bool_decide (5 < length recentAlerts)%nat
   then [ {| rec_type := "stability"; priority := "high";
             message := "High number of recent alerts. System stability may be compromised.";
             rec_action := "Review alert patterns and address root causes." |} ]
   else []).

(** The availability of one endpoint over the responses after [lastHour];
    no entry when there is none. *)
Definition endpoint_availability (lastHour : Z) (responses : list response) : option Q :=
  let recentResponses := filter (fun r => (lastHour < resp_timestamp r)%Z) responses in
  if bool_decide (0 < length recentResponses)%nat
  then Some (availability recentResponses)
  else None.

Definition getHealthReport (m : monitor) : report :=
  let lastHour := (now m - 3600000)%Z in
  let ms := metrics m in
  let recentCPU := filter (fun x => (lastHour < cpu_timestamp x)%Z) (cpu ms) in
  let recentMemory := filter (fun x => (lastHour < mem_timestamp x)%Z) (memory ms) in
  let recentDisk := filter (fun x => (lastHour < disk_timestamp x)%Z) (disk ms) in
  let endpointAvailability := omap (endpoint_availability lastHour) (responseTimes ms) in
  {| generated := now m;
     system_cpu :=
       {| current := default (JS.Num 0) (cpu_usage <$> last (cpu ms));
          average_usage := JS.toFixed2 (average (cpu_usage <$> recentCPU));
          threshold := th_cpu (alertThresholds (config m)) |};
     system_memory :=
       {| current := default (JS.Num 0) (mem_usage <$> last (memory ms));
          average_usage := JS.toFixed2 (average (mem_usage <$> recentMemory));
          threshold := th_memory (alertThresholds (config m)) |};
     system_disk :=
       {| current := default (JS.Num 0) (disk_usage <$> last (disk ms));
          average_usage := JS.toFixed2 (average (disk_usage <$> recentDisk));
          threshold := th_disk (alertThresholds (config m)) |};
     report_endpoints := endpointAvailability;
     alerts_total := length (alerts m);
     alerts_lastHour := length (filter (fun a => (lastHour < alert_timestamp a)%Z) (alerts m));
     alerts_critical := length (filter (fun a => alert_severity a = critical) (alerts m));
     alerts_unacknowledged := length (filter (fun a => acknowledged a = false) (alerts m));
     recovery_totalActions := length (recoveryActions m);
     recovery_lastHour := length (filter (fun r => (lastHour < rec_timestamp r)%Z) (recoveryActions m));
     recovery_successful := length (filter (fun r => success r = true) (recoveryActions m));
     recommendations := generateRecommendations m |}.

End Operations.

(** *** The status line *)

(** The text of [formatUptime], as the unit it starts with and the two
    numbers it shows. *)
Inductive uptime_text : Type :=
  | UpDays (days hours : Z)
  | UpHours (hours minutes : Z)
  | UpMinutes (minutes seconds : Z)
  | UpSeconds (seconds : Z).

(** [Math.floor] of a quotient by a positive number is [Z.div]; [%] keeps the
    sign of the dividend, as [Z.rem] does. *)
Definition uptime_parts (ms : Z) : uptime_text :=
  let seconds := (ms / 1000)%Z in
  let minutes := (seconds / 60)%Z in
  let hours := (minutes / 60)%Z in
  let days := (hours / 24)%Z in
  if decide (0 < days)%Z then UpDays days (Z.rem hours 24)
  else if decide (0 < hours)%Z then UpHours hours (Z.rem minutes 60)
  else if decide (0 < minutes)%Z then UpMinutes minutes (Z.rem seconds 60)
  else UpSeconds seconds.

Definition render_uptime (u : uptime_text) : string :=
  match u with
  | UpDays d h => pretty d ++ "d " ++ pretty h ++ "h"
  | UpHours h m => pretty h ++ "h " ++ pretty m ++ "m"
  | UpMinutes m s => pretty m ++ "m " ++ pretty s ++ "s"
  | UpSeconds s => pretty s ++ "s"
  end.

Definition formatUptime (ms : Z) : string := render_uptime (uptime_parts ms).

Record status : Type := {
  status_timestamp : Z;
  status_uptime : string;
  status_alerts_total : nat;
  status_alerts_critical : nat;
  status_alerts_warning : nat;
  status_recoveryActions : nat;
  status_cpu : JS.number;
  status_memory : JS.number;
  status_disk : JS.number
}.

(** The status that [logStatus] builds and returns; the line that it appends
    to the log file of the day is outside the model. *)
Definition logStatus (m : monitor) : status :=
  {| status_timestamp := now m;
     status_uptime := formatUptime (now m - uptime (metrics m));
     status_alerts_total := length (alerts m);
     status_alerts_critical :=
       length (filter (fun a => alert_severity a = critical) (alerts m));
     status_alerts_warning :=
       length (filter (fun a => alert_severity a = warning) (alerts m));
     status_recoveryActions := length (recoveryActions m);
     status_cpu := default (JS.Num 0) (cpu_usage <$> last (cpu (metrics m)));
     status_memory := default (JS.Num 0) (mem_usage <$> last (memory (metrics m)));
     status_disk := default (JS.Num 0) (disk_usage <$> last (disk (metrics m))) |}.

End HealthMonitor.

(** ** The payment reference of [FNBEFTService] *)

Module FNBEFTService.

Fixpoint string_drop (n : nat) (s : string) : string :=
  match n, s with
  | O, _ => s
  | S n', String _ r => string_drop n' r
  | S _, EmptyString => EmptyString
  end.

Fixpoint string_take (n : nat) (s : string) : string :=
  match n, s with
  | O, _ => EmptyString
  | S n', String c r => String c (string_take n' r)
  | S _, EmptyString => EmptyString
  end.

(** [s.slice(-n)]: the last [n] characters, the whole text when it is
    shorter. *)
Definition slice_last (n : nat) (s : string) : string :=
  string_drop (String.length s - n) s.

(** [s.substr(start, len)] *)
Definition substr (start len : nat) (s : string) : string :=
  string_take len (string_drop start s).

Definition upper (c : ascii) : ascii :=
  let n := nat_of_ascii c in
  if (97 <=? n)%nat && (n <=? 122)%nat then ascii_of_nat (n - 32) else c.

(** [s.toUpperCase()] on the digits and letters of a number written in
    base 36. *)
Fixpoint toUpperCase (s : string) : string :=
  match s with
  | EmptyString => EmptyString
  | String c r => String (upper c) (toUpperCase r)
  end.

(** [generatePaymentReference(applicantId)], at clock [now] and for the text
    [random36] of [Math.random().toString(36)]. *)
Definition generatePaymentReference (now : Z) (random36 : string) (applicantId : string)
  : string :=
  let timestamp := slice_last 6 (pretty now) in
  let random := toUpperCase (substr 2 4 random36) in
  "JOBAPP" ++ slice_last 4 applicantId ++ timestamp ++ random.

End FNBEFTService.

Import HealthMonitor.

(** ** A host for the examples

    One core at 92 percent, memory at 60 percent, the root file system at 95
    percent; every command ends without error and every directory exists. *)

Definition df_output (pct : string) : string :=
  "Filesystem Size Used Avail Use% Mounted on" ++ String newline
  ("/dev/sda1 50G 45G 5G " ++ pct ++ " /").

Definition netstat_output : string :=
  JS.join (String newline EmptyString)
    [ "Kernel Interface table";
      "Iface MTU RX-OK RX-ERR RX-DRP RX-OVR TX-OK TX-ERR TX-DRP TX-OVR Flg";
      "eth0 1500 1000 0 0 0 900 0 0 0 BMRU" ].

Definition ps_output : string :=
  JS.join (String newline EmptyString)
    [ "USER PID %CPU %MEM VSZ RSS TTY STAT START TIME COMMAND";
      "root 1 0.0 0.1 1000 500 ? Ss 10:00 0:01 /sbin/init";
      "app 42 1.5 2.0 9000 800 ? Sl 10:00 0:05 node server.js" ].

Definition scenario_world : world :=
  {| exec := fun _ cmd =>
       if String.eqb cmd "df -h /" then ExecOk (df_output "95%")
       else if String.eqb cmd "netstat -i" then ExecOk netstat_output
       else if String.eqb cmd "ps aux" then ExecOk ps_output
       else ExecOk EmptyString;
     finished_at := fun n => Z.of_nat n;
     connect := fun _ _ => true;
     existsSync := fun _ _ => true;
     random := fun _ => "r";
     cpus := fun _ => [ {| user := 92; nice := 0; sys := 0; idle := 8; irq := 0 |} ];
     totalmem := fun _ => 1000%Z;
     freemem := fun _ => 400%Z;
     http_get := fun _ _ => HttpResponse 200 10;
     status_message := fun _ => "Request failed";
     app_dir := "/srv/jobai" |}.


(** The same host, except that [redis-cli ping] always fails: the restart
    command of redis ends without error but the service stays down. *)
Definition redis_down_world : world :=
  {| exec := fun n cmd =>
       if String.eqb cmd "redis-cli ping" then ExecError "Command failed: redis-cli ping"
       else exec scenario_world n cmd;
     finished_at := finished_at scenario_world;
     connect := connect scenario_world;
     existsSync := existsSync scenario_world;
     random := random scenario_world;
     cpus := cpus scenario_world;
     totalmem := totalmem scenario_world;
     freemem := freemem scenario_world;
     http_get := http_get scenario_world;
     status_message := status_message scenario_world;
     app_dir := app_dir scenario_world |}.

Definition redis : service :=
  {| name := "redis"; command := Some "redis-cli ping"; port := None;
     restart := "systemctl restart redis" |}.

(** The service named in the payload of an alert. *)
Definition alert_service (a : alert) : option string :=
  match alert_payload a with
  | ServiceData service _ => Some service
  | _ => None
  end.

(** The services whose probe is unhealthy in the cycle of [checkServices]
    that goes through [ss] from [m], in the order of the loop. *)
Fixpoint probed_unhealthy (w : world) (ss : list service) (m : monitor) : list service :=
  match ss with
  | [] => []
  | s :: rest =>
      (if (probe w s m).1 then [] else [s]) ++
      probed_unhealthy w rest (checkService w s m)
  end.

(** An alert is selected by the proactive sweep at clock [t]: it is critical,
    not acknowledged and more than five minutes old. *)
Definition selected (t : Z) (a : alert) : Prop :=
  alert_severity a = critical /\
  acknowledged a = false /\
  (300000 < t - alert_timestamp a)%Z.

#[global] Instance selected_dec (t : Z) (a : alert) : Decision (selected t a).
Proof. unfold selected. apply _. Defined.

(** The remediation that the sweep runs for an alert type, if any. *)
Definition remediation (type : string) : option recovery_action :=
  if String.eqb type "HIGH_DISK" then Some disk_cleanup
  else if String.eqb type "HIGH_MEMORY" then Some memory_cleanup
  else if String.eqb type "ENDPOINT_DOWN" then Some application_restart
  else None.

(** Two disk alerts, raised a minute apart, seen by the sweep that runs four
    hundred seconds after the first. *)
Definition two_disk_alerts : monitor :=
  let m1 := (triggerAlert scenario_world "HIGH_DISK"
               (UsageData (JS.Num 95) (JS.Num 90) 0) (constructor 0)).2 in
  let m2 := (triggerAlert scenario_world "HIGH_DISK"
               (UsageData (JS.Num 96) (JS.Num 90) 60000) (set_now 60000 m1)).2 in
  set_now 400000 m2.

(** A host on which [pm2] fails. *)
Definition pm2_fails_world : world :=
  {| exec := fun n cmd =>
       if JS.starts_with "pm2" cmd then ExecError "Command failed: pm2"
       else exec scenario_world n cmd;
     finished_at := finished_at scenario_world;
     connect := connect scenario_world;
     existsSync := existsSync scenario_world;
     random := random scenario_world;
     cpus := cpus scenario_world;
     totalmem := totalmem scenario_world;
     freemem := freemem scenario_world;
     http_get := http_get scenario_world;
     status_message := status_message scenario_world;
     app_dir := app_dir scenario_world |}.

(** A host whose first eight HTTP answers are 200 and whose later ones are
    404, and the state after ten checks of one endpoint on it. *)
Definition eight_of_ten_world : world :=
  {| exec := exec scenario_world;
     finished_at := finished_at scenario_world;
     connect := connect scenario_world;
     existsSync := existsSync scenario_world;
     random := random scenario_world;
     cpus := cpus scenario_world;
     totalmem := totalmem scenario_world;
     freemem := freemem scenario_world;
     http_get := fun n _ => if (n <? 8)%nat then HttpResponse 200 12 else HttpResponse 404 12;
     status_message := status_message scenario_world;
     app_dir := app_dir scenario_world |}.

Definition backend_api : endpoint :=
  {| url := "http://localhost:5000/health"; ep_name := "Backend API" |}.

Definition ten_checks : monitor :=
  set_now 60000 (Nat.iter 10 (checkEndpoint eight_of_ten_world backend_api) (constructor 0)).

(** An old endpoint outage, an old failed restart, an old warning and a
    fresh disk alert, seen by the sweep at clock 400000. *)
Definition mixed_alerts : monitor :=
  let w := pm2_fails_world in
  let m1 := (triggerAlert w "ENDPOINT_DOWN" (FailureData "Frontend" "timeout" 0) (constructor 0)).2 in
  let m2 := (triggerAlert w "SERVICE_RESTART_FAILED" (ServiceData "redis" 0) m1).2 in
  let m3 := (triggerAlert w "HIGH_CPU" (UsageData (JS.Num 92) (JS.Num 80) 0) m2).2 in
  let m4 := (triggerAlert w "HIGH_DISK" (UsageData (JS.Num 95) (JS.Num 90) 390000)
               (set_now 390000 m3)).2 in
  set_now 400000 m4.

Local Open Scope list_scope.

(** The scheduled tasks as steps of the monitor: each task runs to its end
    at some clock [t] before the next one starts. A system check whose
    process stopped takes no step. *)
Inductive task_step (w : world) : monitor -> monitor -> Prop :=
  | step_system_check (t : Z) (m m' : monitor) :
      performSystemCheck w (set_now t m) = Some m' -> task_step w m m'
  | step_service_check (t : Z) (m : monitor) :
      task_step w m (checkServices w (set_now t m))
  | step_endpoint_check (t : Z) (m : monitor) :
      task_step w m (checkEndpoints w (set_now t m))
  | step_retention (t : Z) (m : monitor) :
      task_step w m (cleanupOldMetrics (set_now t m))
  | step_callbacks (t : Z) (m : monitor) :
      task_step w m (run_pending w t m).

(** The states that the monitor can be in after it was built at clock [t0]. *)
Definition reachable (w : world) (t0 : Z) (m : monitor) : Prop :=
  rtc (task_step w) (constructor t0) m.

(** The severity of an alert is the one of the table at its type. *)
Definition classified (a : alert) : Prop :=
  alert_severity a = getAlertSeverity (alert_type a).

(** The alert types that the monitor raises. *)
Definition listed_types : list string :=
  ["HIGH_CPU"; "HIGH_MEMORY"; "HIGH_DISK"; "SERVICE_DOWN";
   "SERVICE_RESTART_FAILED"; "ENDPOINT_DOWN"; "ENDPOINT_ERROR";
   "HIGH_RESPONSE_TIME"].

Definition listed (a : alert) : Prop := alert_type a ∈ listed_types.

(** The tick counters of a core are not negative. *)
Definition counters_nonneg (c : cpu_times) : Prop :=
  (0 <= user c /\ 0 <= nice c /\ 0 <= sys c /\ 0 <= idle c /\ 0 <= irq c)%Z.

(** Every response kept in the histories has a status below 500. *)
Definition responses_below_500 (m : monitor) : Prop :=
  map_Forall (fun _ l => Forall (fun r => (resp_status r < 500)%Z) l)
             (responseTimes (metrics m)).

(** A host none of whose HTTP requests is answered with a status below 500. *)
Definition never_answers (w : world) : Prop :=
  forall n u, match http_get w n u with
              | HttpResponse status _ => (500 <= status)%Z
              | HttpFailure _ => True
              end.

(** A host whose HTTP requests all time out. *)
Definition unreachable_world : world :=
  {| exec := exec scenario_world;
     finished_at := finished_at scenario_world;
     connect := connect scenario_world;
     existsSync := existsSync scenario_world;
     random := random scenario_world;
     cpus := cpus scenario_world;
     totalmem := totalmem scenario_world;
     freemem := freemem scenario_world;
     http_get := fun _ _ => HttpFailure "timeout of 10000ms exceeded";
     status_message := status_message scenario_world;
     app_dir := app_dir scenario_world |}.

(** The alert log once the alerts at the positions [refs] are acknowledged. *)
Definition acknowledge_all (refs : list nat) (l : list alert) : list alert :=
  foldl (fun acc i => alter acknowledge i acc) l refs.

(** The alerts and the recovery records that an operation added. *)
Definition new_alerts (m m' : monitor) : list alert :=
  drop (length (alerts m)) (alerts m').

Definition new_recoveries (m m' : monitor) : list recovery_record :=
  drop (length (recoveryActions m)) (recoveryActions m').

(** ** Basic facts about the state *)

Section Frames.

Variable w : world.

Lemma triggerAlert_alerts type data m :
  alerts (triggerAlert w type data m).2 = alerts m ++ [(triggerAlert w type data m).1].
Proof. reflexivity. Qed.

Lemma triggerAlert_recoveryActions type data m :
  recoveryActions (triggerAlert w type data m).2 = recoveryActions m.
Proof. reflexivity. Qed.

Lemma triggerAlert_type type data m :
  alert_type (triggerAlert w type data m).1 = type.
Proof. reflexivity. Qed.

Lemma cleanupMemory_alerts m : alerts (cleanupMemory w m) = alerts m.
Proof. unfold cleanupMemory. by destruct (existsSync _ _ _). Qed.

Lemma cleanupMemory_recoveryActions m :
  exists r, recoveryActions (cleanupMemory w m) = recoveryActions m ++ [r] /\
            action r = memory_cleanup /\ success r = true.
Proof. unfold cleanupMemory. destruct (existsSync _ _ _); by eexists. Qed.

Lemma cleanupDisk_alerts m : alerts (cleanupDisk w m) = alerts m.
Proof. unfold cleanupDisk. by repeat destruct (existsSync _ _ _). Qed.

Lemma cleanupDisk_arrays m : arrays (cleanupDisk w m) = arrays m ++ [[]].
Proof. unfold cleanupDisk. by repeat destruct (existsSync _ _ _). Qed.

(** Every call of [cleanupDisk] adds one record, of action [disk_cleanup];
    the array that the record reads is still empty at that point, so
    [success] is [false] whatever the four commands do later. *)
Lemma cleanupDisk_recoveryActions m :
  exists r, recoveryActions (cleanupDisk w m) = recoveryActions m ++ [r] /\
            action r = disk_cleanup /\
            rec_actions r = Some (length (arrays m)) /\
            success r = false.
Proof.
  unfold cleanupDisk.
  repeat destruct (existsSync _ _ _); eexists; cbn;
    (split; [reflexivity|]); repeat split;
    by rewrite lookup_app_r, Nat.sub_diag by lia.
Qed.

Lemma restartApplication_alerts m : alerts (restartApplication w m) = alerts m.
Proof.
  unfold restartApplication, executeCommand.
  by repeat destruct (exec _ _ _).
Qed.

Lemma restartApplication_recoveryActions m :
  exists r, recoveryActions (restartApplication w m) = recoveryActions m ++ [r] /\
            action r = application_restart.
Proof.
  unfold restartApplication, executeCommand.
  repeat destruct (exec _ _ _); by eexists.
Qed.

Lemma probe_frame s m :
  alerts (probe w s m).2 = alerts m /\
  recoveryActions (probe w s m).2 = recoveryActions m /\
  config (probe w s m).2 = config m /\
  pending (probe w s m).2 = pending m.
Proof.
  unfold probe, checkServiceCommand, checkServicePort.
  by repeat case_match.
Qed.

Lemma restartService_frame s m :
  alerts (restartService w s m) = alerts m /\
  config (restartService w s m) = config m /\
  exists r, recoveryActions (restartService w s m) = recoveryActions m ++ [r] /\
            action r = service_restart /\ rec_service r = Some (name s) /\
            success r = (if exec w (tick m) (restart s) is ExecOk _ then true else false).
Proof.
  unfold restartService, executeCommand.
  destruct (exec _ _ _); (repeat split; [by eexists]).
Qed.

End Frames.

(** ** Alert evaluation *)

(** [analyzeMetrics] reads the [usage] property only: it cannot tell which
    check a result comes from. *)
Lemma analyzeMetrics_only_usage (w : world) (r r' : check_result) (m : monitor) :
  usage_of r = usage_of r' ->
  analyzeMetrics w r m = analyzeMetrics w r' m.
Proof. intros H. unfold analyzeMetrics. by rewrite H. Qed.

(** The alerts that one evaluation raises, for a result of any check: one per
    threshold that the [usage] of the result exceeds. *)
Lemma analyzeMetrics_alert_types (w : world) (r : check_result) (m : monitor) :
  let th := alertThresholds (config m) in
  alert_type <$> new_alerts m (analyzeMetrics w r m) =
    (if usage_above (usage_of r) (th_cpu th) then ["HIGH_CPU"] else []) ++
    (if usage_above (usage_of r) (th_memory th) then ["HIGH_MEMORY"] else []) ++
    (if usage_above (usage_of r) (th_disk th) then ["HIGH_DISK"] else []).
Proof.
  cbn zeta. unfold new_alerts, analyzeMetrics.
  destruct (usage_above _ (th_cpu _)), (usage_above _ (th_memory _)),
    (usage_above _ (th_disk _));
    rewrite ?cleanupDisk_alerts, ?triggerAlert_alerts,
            ?cleanupMemory_alerts, ?triggerAlert_alerts, <- ?app_assoc;
    by rewrite ?drop_app_length, ?drop_all.
Qed.

(** C1 (code defect). A CPU sample of 92 percent is compared with the three
    thresholds 80, 85 and 90 in turn: it raises HIGH_CPU, HIGH_MEMORY and
    HIGH_DISK, and the memory and the disk cleanup both run. In the cycle
    that samples cpu 92, memory 60 and disk 95, the CPU sample and the disk
    sample raise three alerts each, where one HIGH_CPU and one HIGH_DISK
    alert are expected. *)
Theorem analyzeMetrics_cpu_sample_raises_three_alerts :
  let m := analyzeMetrics scenario_world (CpuResult (JS.Num 92) 1) (constructor 0) in
  alert_type <$> alerts m = ["HIGH_CPU"; "HIGH_MEMORY"; "HIGH_DISK"] /\
  action <$> recoveryActions m = [memory_cleanup; disk_cleanup] /\
  (fun m' => alert_type <$> alerts m') <$> performSystemCheck scenario_world (constructor 0)
  = Some ["HIGH_CPU"; "HIGH_MEMORY"; "HIGH_DISK"; "HIGH_CPU"; "HIGH_MEMORY"; "HIGH_DISK"].
Proof. vm_compute. auto. Qed.

(** ** Disk cleanup *)

(** C3 (code defect). The four commands of a disk cleanup all end without
    error, and their callbacks fill the shared array with the four tags, but
    the record was built before any callback ran: its [success] is [false],
    and stays so. *)
Theorem cleanupDisk_success_false_after_four_successes :
  let m := cleanupDisk scenario_world (constructor 0) in
  let m' := run_pending scenario_world 1000 m in
  Forall (fun k => exists n cmd cb out,
            k = OnExec n cmd cb /\ exec scenario_world n cmd = ExecOk out) (pending m) /\
  length (pending m) = 4%nat /\
  arrays m' = [["logs_cleaned"; "temp_files_cleaned"; "old_backups_cleaned"; "npm_cache_cleaned"]] /\
  (fun r => (action r, rec_actions r, success r)) <$> recoveryActions m
    = [(disk_cleanup, Some 0%nat, false)] /\
  (fun r => (action r, rec_actions r, success r)) <$> recoveryActions m'
    = [(disk_cleanup, Some 0%nat, false)].
Proof.
  cbv zeta. split; [|by vm_compute].
  vm_compute. repeat constructor; by do 4 eexists.
Qed.

(** ** Service restart *)

(** C10. When the restart command of a service ends without error,
    [restartService] adds one record (service_restart, success true), raises
    no alert and leaves the verification in the timer queue, due ten seconds
    later and not ready before. When the verification then runs and probes
    the service unhealthy, it raises SERVICE_RESTART_FAILED (critical) and
    leaves the recovery records as they are: the record keeps success true
    and no record is added. *)
Theorem restartService_record_reflects_command_only
    (w : world) (s : service) (m : monitor) (out : string) :
  exec w (tick m) (restart s) = ExecOk out ->
  let m1 := restartService w s m in
  let verification := OnTimeout (now m1 + 10000) s in
  (exists r, recoveryActions m1 = recoveryActions m ++ [r] /\
             action r = service_restart /\ rec_service r = Some (name s) /\
             success r = true) /\
  alerts m1 = alerts m /\
  pending m1 = pending m ++ [verification] /\
  (forall t, (t < now m1 + 10000)%Z -> ready t verification = false) /\
  (forall t, (now m1 + 10000 <= t)%Z -> ready t verification = true) /\
  (forall m2 : monitor,
      (probe w s m2).1 = false ->
      let m3 := run_task w verification m2 in
      recoveryActions m3 = recoveryActions m2 /\
      exists a, alerts m3 = alerts m2 ++ [a] /\
                alert_type a = "SERVICE_RESTART_FAILED" /\
                alert_severity a = critical /\
                alert_service a = Some (name s)).
Proof.
  intros Hok m1 verification.
  assert (Hm1 : m1 = push_pending verification
                  (push_recovery
                     {| action := service_restart; rec_service := Some (name s);
                        rec_timestamp := now (resume w m); rec_actions := None;
                        success := true; rec_error := None |} (resume w m))).
  { subst verification m1. unfold restartService, executeCommand. by rewrite Hok. }
  split; [by rewrite Hm1; eexists|].
  split; [by rewrite Hm1|].
  split; [by rewrite Hm1|].
  split; [intros t Ht; apply bool_decide_eq_false; lia|].
  split; [intros t Ht; apply bool_decide_eq_true; lia|].
  intros m2 Hdown m3. subst m3 verification. cbn [run_task]. unfold verifyRestart.
  destruct (probe_frame w s m2) as (Ha & Hr & _ & _).
  destruct (probe w s m2) as [healthy m2']. cbn in Hdown, Ha, Hr. subst healthy.
  rewrite triggerAlert_recoveryActions, triggerAlert_alerts, Ha, Hr.
  split; [done|]. by eexists.
Qed.

(** The restart of redis on a host where the command works and the service
    stays down. *)
Lemma restartService_record_reflects_command_only_witness :
  let m1 := restartService redis_down_world redis (constructor 0) in
  let m3 := run_pending redis_down_world 20000 m1 in
  success <$> recoveryActions m1 = [true] /\
  success <$> recoveryActions m3 = [true] /\
  alert_type <$> alerts m3 = ["SERVICE_RESTART_FAILED"] /\
  recoveryActions
    (run_task redis_down_world (OnTimeout (now m1 + 10000) redis) m1)
  = recoveryActions m1.
Proof.
  split; [by vm_compute|]. split; [by vm_compute|]. split; [by vm_compute|].
  apply (restartService_record_reflects_command_only
           redis_down_world redis (constructor 0) EmptyString).
  - reflexivity.
  - reflexivity.
Defined.

(** ** Service checks *)

Lemma checkService_unfold (w : world) (s : service) (m : monitor) :
  checkService w s m =
  if (probe w s m).1 then (probe w s m).2
  else restartService w s
         (triggerAlert w "SERVICE_DOWN"
            (ServiceData (name s) (now (probe w s m).2)) (probe w s m).2).2.
Proof. unfold checkService. by destruct (probe w s m) as [[] m1]. Qed.

Lemma checkService_spec (w : world) (s : service) (m : monitor) :
  let down := if (probe w s m).1 then [] else [s] in
  config (checkService w s m) = config m /\
  exists new recs,
    alerts (checkService w s m) = alerts m ++ new /\
    recoveryActions (checkService w s m) = recoveryActions m ++ recs /\
    Forall2 (fun a s' => alert_type a = "SERVICE_DOWN" /\ alert_severity a = critical /\
                         alert_service a = Some (name s') /\ acknowledged a = false)
            new down /\
    Forall2 (fun r s' => action r = service_restart /\ rec_service r = Some (name s'))
            recs down.
Proof.
  rewrite checkService_unfold.
  destruct (probe_frame w s m) as (Ha & Hr & Hc & _).
  destruct (probe w s m) as [healthy m1]. cbn [fst snd] in *.
  destruct healthy.
  - split; [done|]. exists [], []. rewrite !app_nil_r. by repeat split.
  - set (m2 := (triggerAlert w "SERVICE_DOWN" (ServiceData (name s) (now m1)) m1).2).
    destruct (restartService_frame w s m2) as (Ha' & Hc' & r & Hr' & Hact & Hsvc & _).
    split; [by rewrite Hc'|].
    exists [(triggerAlert w "SERVICE_DOWN" (ServiceData (name s) (now m1)) m1).1], [r].
    rewrite Ha', Hr'. subst m2.
    rewrite triggerAlert_alerts, triggerAlert_recoveryActions, Ha, Hr.
    split; [done|]. split; [done|].
    split; repeat constructor; done.
Qed.

Lemma checkServices_loop (w : world) (ss : list service) (m : monitor) :
  let down := probed_unhealthy w ss m in
  let m' := foldl (fun acc s => checkService w s acc) m ss in
  exists new recs,
    alerts m' = alerts m ++ new /\
    recoveryActions m' = recoveryActions m ++ recs /\
    Forall2 (fun a s' => alert_type a = "SERVICE_DOWN" /\ alert_severity a = critical /\
                         alert_service a = Some (name s') /\ acknowledged a = false)
            new down /\
    Forall2 (fun r s' => action r = service_restart /\ rec_service r = Some (name s'))
            recs down.
Proof.
  revert m. induction ss as [|s rest IH]; intros m; cbn zeta.
  - exists [], []. rewrite !app_nil_r. by repeat split.
  - cbn [foldl probed_unhealthy].
    destruct (checkService_spec w s m) as (_ & new1 & recs1 & Ha1 & Hr1 & Hn1 & Hrec1).
    destruct (IH (checkService w s m)) as (new2 & recs2 & Ha2 & Hr2 & Hn2 & Hrec2).
    exists (new1 ++ new2), (recs1 ++ recs2).
    rewrite Ha2, Hr2, Ha1, Hr1, <- !app_assoc.
    repeat split; by apply Forall2_app.
Qed.

(** C2, as the code has it. In every cycle of [checkServices], each service
    whose probe is unhealthy in that cycle gets one SERVICE_DOWN alert
    (severity critical) and one restart attempt, whatever its state in the
    cycles before; a service whose probe is healthy gets neither. The alerts
    and the records of a cycle are exactly these, in the order of the loop. *)
Theorem checkServices_alerts_on_every_unhealthy_probe (w : world) (m : monitor) :
  let down := probed_unhealthy w (services (config m)) m in
  let m' := checkServices w m in
  exists new recs,
    alerts m' = alerts m ++ new /\
    recoveryActions m' = recoveryActions m ++ recs /\
    Forall2 (fun a s' => alert_type a = "SERVICE_DOWN" /\ alert_severity a = critical /\
                         alert_service a = Some (name s') /\ acknowledged a = false)
            new down /\
    Forall2 (fun r s' => action r = service_restart /\ rec_service r = Some (name s'))
            recs down.
Proof. apply checkServices_loop. Qed.

(** C2, counterexample. Redis is down from the start. The first cycle probes
    it unhealthy and raises SERVICE_DOWN; the verification of the restart
    finds it still down; the second cycle, thirty seconds later, probes it
    unhealthy again and raises SERVICE_DOWN again and restarts it again. *)
Lemma checkServices_alerts_again_while_unhealthy :
  let m0 := constructor 0 in
  let m1 := run_pending redis_down_world 15000 (checkServices redis_down_world m0) in
  let m2 := checkServices redis_down_world (set_now 30000 m1) in
  name <$> probed_unhealthy redis_down_world (services (config m0)) m0 = ["redis"] /\
  name <$> probed_unhealthy redis_down_world (services (config m1)) (set_now 30000 m1) = ["redis"] /\
  (fun a => (alert_type a, alert_service a)) <$> alerts m1
    = [("SERVICE_DOWN", Some "redis"); ("SERVICE_RESTART_FAILED", Some "redis")] /\
  (fun a => (alert_type a, alert_service a)) <$> new_alerts m1 m2
    = [("SERVICE_DOWN", Some "redis")] /\
  (fun r => (action r, rec_service r)) <$> new_recoveries m1 m2
    = [(service_restart, Some "redis")].
Proof. by vm_compute. Qed.

(** ** Proactive recovery *)

Lemma needs_recovery_selected (t : Z) (a : alert) :
  needs_recovery t a = true <-> selected t a.
Proof.
  unfold needs_recovery, selected.
  rewrite !andb_true_iff, !bool_decide_eq_true, negb_true_iff. tauto.
Qed.

Lemma recover_alerts (w : world) (type : string) (m : monitor) :
  alerts (recover w type m) = alerts m.
Proof.
  unfold recover.
  repeat case_match;
    auto using cleanupDisk_alerts, cleanupMemory_alerts, restartApplication_alerts.
Qed.

(** One call of the dispatch adds the record of the remediation mapped to
    the type, and nothing when the type has none. *)
Lemma recover_recoveryActions (w : world) (type : string) (m : monitor) :
  exists recs,
    recoveryActions (recover w type m) = recoveryActions m ++ recs /\
    action <$> recs = option_list (remediation type).
Proof.
  unfold recover, remediation.
  destruct (String.eqb type "HIGH_DISK").
  { destruct (cleanupDisk_recoveryActions w m) as (r & Heq & Hact & _).
    exists [r]. split; [done|]. cbn. by rewrite Hact. }
  destruct (String.eqb type "HIGH_MEMORY").
  { destruct (cleanupMemory_recoveryActions w m) as (r & Heq & Hact & _).
    exists [r]. split; [done|]. cbn. by rewrite Hact. }
  destruct (String.eqb type "SERVICE_DOWN") eqn:Hsd.
  { apply String.eqb_eq in Hsd as ->. exists []. by rewrite app_nil_r. }
  destruct (String.eqb type "ENDPOINT_DOWN").
  { destruct (restartApplication_recoveryActions w m) as (r & Heq & Hact).
    exists [r]. split; [done|]. cbn. by rewrite Hact. }
  exists []. by rewrite app_nil_r.
Qed.

(** The positions that [select_from] returns. *)
Lemma elem_of_select_from {A : Type} (p : A -> bool) (k : nat) (l : list A) (i : nat) :
  i ∈ select_from p k l <->
  exists a, (k <= i)%nat /\ l !! (i - k)%nat = Some a /\ p a = true.
Proof.
  revert k. induction l as [|x l IH]; intros k; cbn [select_from].
  - rewrite elem_of_nil. split; [done|]. by intros (a & _ & ? & _).
  - assert (Hrest : i ∈ select_from p (S k) l <->
                    exists a, (k < i)%nat /\ (x :: l) !! (i - k)%nat = Some a /\ p a = true).
    { rewrite IH. split; intros (a & Hk & Hl & Hp); exists a; (split; [lia|]); split; try done.
      - by replace (i - k)%nat with (S (i - S k)) by lia.
      - by replace (i - k)%nat with (S (i - S k)) in Hl by lia. }
    destruct (p x) eqn:Hpx.
    + rewrite elem_of_cons, Hrest. split.
      * intros [->|(a & Hk & Hl & Hp)].
        -- exists x. rewrite Nat.sub_diag. by repeat split.
        -- exists a. repeat split; [lia|done|done].
      * intros (a & Hk & Hl & Hp).
        destruct (decide (i = k)) as [->|Hne]; [by left|].
        right. exists a. repeat split; [lia|done|done].
    + rewrite Hrest. split.
      * intros (a & Hk & Hl & Hp). exists a. repeat split; [lia|done|done].
      * intros (a & Hk & Hl & Hp).
        destruct (decide (i = k)) as [->|Hne].
        -- rewrite Nat.sub_diag in Hl. cbn in Hl. congruence.
        -- exists a. repeat split; [lia|done|done].
Qed.

(** Reading the selected positions gives the elements that pass the test,
    in their order. *)
Lemma select_from_lookup {A : Type} (p : A -> bool) (pre l : list A) :
  omap (fun i => (pre ++ l) !! i) (select_from p (length pre) l) =
  filter (fun a => p a = true) l.
Proof.
  revert pre. induction l as [|x l IH]; intros pre; cbn [select_from]; [done|].
  specialize (IH (pre ++ [x])).
  rewrite length_app, Nat.add_1_r, <- app_assoc in IH. cbn [app] in IH.
  rewrite filter_cons. destruct (p x) eqn:Hpx.
  - rewrite decide_True by done. cbn [omap list_omap].
    rewrite list_lookup_middle by done. cbn. by rewrite <- IH.
  - rewrite decide_False by congruence. done.
Qed.

Lemma alter_absent {A : Type} (f : A -> A) (l : list A) (i : nat) :
  l !! i = None -> alter f i l = l.
Proof.
  intros Hi. apply list_eq. intros j. rewrite list_lookup_alter.
  case_decide; [subst; by rewrite Hi|done].
Qed.

Lemma omap_lookup_fmap {A B : Type} (f : A -> B) (l : list A) (refs : list nat) :
  omap (fun i => (f <$> l) !! i) refs = f <$> omap (fun i => l !! i) refs.
Proof.
  induction refs as [|i refs IH]; [done|]. cbn.
  rewrite list_lookup_fmap, IH. by destruct (l !! i).
Qed.

Lemma omap_after_fmap {A B C : Type} (f : A -> B) (g : B -> option C) (l : list A) :
  omap g (f <$> l) = omap (fun a => g (f a)) l.
Proof. induction l as [|x l IH]; [done|]. cbn. by rewrite IH. Qed.

Lemma recover_all_alerts (w : world) (refs : list nat) (m : monitor) :
  alerts (recover_all w refs m) = acknowledge_all refs (alerts m).
Proof.
  revert m. induction refs as [|i refs IH]; intros m; [done|].
  cbn [recover_all acknowledge_all foldl].
  destruct (alerts m !! i) as [a|] eqn:Hi.
  - rewrite IH. cbn [alerts set_alerts]. by rewrite recover_alerts.
  - rewrite IH. unfold acknowledge_all. by rewrite (alter_absent _ _ _ Hi).
Qed.

Lemma acknowledge_all_lookup (refs : list nat) (l : list alert) (j : nat) :
  acknowledge_all refs l !! j =
  (if decide (j ∈ refs) then acknowledge else id) <$> l !! j.
Proof.
  revert l. induction refs as [|i refs IH]; intros l.
  - cbn. rewrite decide_False by apply not_elem_of_nil. by destruct (l !! j).
  - cbn [acknowledge_all foldl]. fold (acknowledge_all refs (alter acknowledge i l)).
    rewrite IH, list_lookup_alter.
    destruct (decide (i = j)) as [->|Hne].
    + rewrite (decide_True (P := j ∈ j :: refs)) by apply list_elem_of_here.
      destruct (l !! j) as [a|]; [|done]. cbn. by case_decide.
    + destruct (decide (j ∈ refs)) as [Hin|Hnin].
      * by rewrite decide_True by by apply list_elem_of_further.
      * rewrite decide_False; [done|]. rewrite elem_of_cons. by intros [?|?].
Qed.

Lemma alter_acknowledge_types (l : list alert) (i : nat) :
  alert_type <$> alter acknowledge i l = alert_type <$> l.
Proof. revert i. induction l as [|a l IH]; intros [|i]; cbn; by f_equal. Qed.

Lemma acknowledge_all_types (refs : list nat) (l : list alert) :
  alert_type <$> acknowledge_all refs l = alert_type <$> l.
Proof.
  revert l. induction refs as [|i refs IH]; intros l; [done|].
  cbn [acknowledge_all foldl]. fold (acknowledge_all refs (alter acknowledge i l)).
  by rewrite IH, alter_acknowledge_types.
Qed.

(** The sweep runs one dispatch per reference, in their order. *)
Lemma recover_all_recoveryActions (w : world) (refs : list nat) (m : monitor) :
  exists recs,
    recoveryActions (recover_all w refs m) = recoveryActions m ++ recs /\
    action <$> recs =
      omap remediation (omap (fun i => (alert_type <$> alerts m) !! i) refs).
Proof.
  revert m. induction refs as [|i refs IH]; intros m.
  - exists []. by rewrite app_nil_r.
  - cbn [recover_all]. cbn [omap list_omap]. rewrite list_lookup_fmap.
    destruct (alerts m !! i) as [a|] eqn:Hi; cbn [fmap option_fmap option_map].
    + set (m1 := recover w (alert_type a) m).
      destruct (IH (set_alerts (alter acknowledge i (alerts m1)) m1)) as (recs2 & Hr2 & Ha2).
      destruct (recover_recoveryActions w (alert_type a) m) as (recs1 & Hr1 & Ha1).
      fold m1 in Hr1.
      exists (recs1 ++ recs2). split.
      * rewrite Hr2. cbn [recoveryActions set_recoveryActions set_alerts].
        by rewrite Hr1, <- app_assoc.
      * rewrite fmap_app, Ha1, Ha2. cbn [alerts set_alerts].
        rewrite alter_acknowledge_types. subst m1. rewrite recover_alerts.
        cbn [omap list_omap]. by destruct (remediation (alert_type a)).
    + apply IH.
Qed.

(** C5. The sweep selects the alerts that are critical, not acknowledged and
    more than five minutes old, and no other; when it ends, every selected
    alert is acknowledged and every other alert is as it was, whatever the
    commands of the remediations did and whether or not the type has a
    remediation. *)
Theorem attemptAutoRecovery_acknowledges_selected (w : world) (m : monitor) :
  let criticalAlerts := select_from (needs_recovery (now m)) 0 (alerts m) in
  let m' := attemptAutoRecovery w m in
  (forall i : nat,
      i ∈ criticalAlerts <-> exists a, alerts m !! i = Some a /\ selected (now m) a) /\
  length (alerts m') = length (alerts m) /\
  (forall (i : nat) (a : alert),
      alerts m !! i = Some a ->
      alerts m' !! i = Some (if decide (selected (now m) a) then acknowledge a else a)) /\
  (forall (i : nat) (a : alert),
      alerts m !! i = Some a -> selected (now m) a ->
      exists a', alerts m' !! i = Some a' /\ acknowledged a' = true).
Proof.
  intros criticalAlerts m'.
  assert (Hsel : forall i, i ∈ criticalAlerts <->
                           exists a, alerts m !! i = Some a /\ selected (now m) a).
  { intros i. subst criticalAlerts. rewrite elem_of_select_from.
    rewrite Nat.sub_0_r. setoid_rewrite needs_recovery_selected.
    split; intros (a & H); exists a; [tauto|]. split; [lia|tauto]. }
  assert (Hlook : forall i a, alerts m !! i = Some a ->
            alerts m' !! i = Some (if decide (selected (now m) a) then acknowledge a else a)).
  { intros i a Hi. subst m'. unfold attemptAutoRecovery.
    rewrite recover_all_alerts, acknowledge_all_lookup, Hi. cbn.
    fold criticalAlerts. destruct (decide (selected (now m) a)) as [Hs|Hs].
    - rewrite decide_True; [done|]. apply Hsel. eauto.
    - rewrite decide_False; [done|]. rewrite Hsel. intros (a' & Hi' & Hs').
      congruence. }
  split; [done|]. split.
  { subst m'. unfold attemptAutoRecovery.
    rewrite recover_all_alerts.
    rewrite <- (length_fmap alert_type), acknowledge_all_types. by rewrite length_fmap. }
  split; [done|].
  intros i a Hi Hs. rewrite (Hlook i a Hi), decide_True by done. by eexists.
Qed.

(** A sweep on a host whose [pm2] fails: the old endpoint outage (its
    restart fails) and the old failed restart (no remediation) end up
    acknowledged. *)
Lemma attemptAutoRecovery_acknowledges_selected_witness :
  (exists a', alerts (attemptAutoRecovery pm2_fails_world mixed_alerts) !! 0%nat = Some a' /\
              acknowledged a' = true) /\
  (exists a', alerts (attemptAutoRecovery pm2_fails_world mixed_alerts) !! 1%nat = Some a' /\
              acknowledged a' = true) /\
  acknowledged <$> alerts (attemptAutoRecovery pm2_fails_world mixed_alerts)
    = [true; true; false; false] /\
  (fun r => (action r, success r)) <$>
    recoveryActions (attemptAutoRecovery pm2_fails_world mixed_alerts)
    = [(application_restart, false)].
Proof.
  destruct (attemptAutoRecovery_acknowledges_selected pm2_fails_world mixed_alerts)
    as (_ & _ & _ & H).
  split; [|split].
  - eapply (H 0%nat); [reflexivity|]. by vm_compute.
  - eapply (H 1%nat); [reflexivity|]. by vm_compute.
  - split; by vm_compute.
Defined.

(** C6, as the code has it. The sweep runs the remediation of every selected
    alert whose type has one (disk cleanup for HIGH_DISK, memory cleanup for
    HIGH_MEMORY, application restart for ENDPOINT_DOWN), once per alert and
    in the order of the log: the records it adds are one per such alert. *)
Theorem attemptAutoRecovery_one_remediation_per_alert (w : world) (m : monitor) :
  exists recs,
    recoveryActions (attemptAutoRecovery w m) = recoveryActions m ++ recs /\
    action <$> recs =
      omap (fun a => remediation (alert_type a))
           (filter (selected (now m)) (alerts m)).
Proof.
  unfold attemptAutoRecovery.
  destruct (recover_all_recoveryActions w
              (select_from (needs_recovery (now m)) 0 (alerts m)) m) as (recs & Hr & Ha).
  exists recs. split; [done|]. rewrite Ha.
  rewrite omap_lookup_fmap, (select_from_lookup _ [] (alerts m)), omap_after_fmap.
  f_equal. apply list_filter_iff. intros a. apply needs_recovery_selected.
Qed.

(** C6, counterexample. Two disk alerts are old enough at the same sweep:
    the disk cleanup runs twice in that sweep. *)
Lemma attemptAutoRecovery_cleans_disk_twice :
  let m' := attemptAutoRecovery scenario_world two_disk_alerts in
  alert_type <$> filter (selected (now two_disk_alerts)) (alerts two_disk_alerts)
    = ["HIGH_DISK"; "HIGH_DISK"] /\
  action <$> new_recoveries two_disk_alerts m' = [disk_cleanup; disk_cleanup] /\
  length (filter (fun r => action r = disk_cleanup) (new_recoveries two_disk_alerts m')) = 2%nat.
Proof. by vm_compute. Qed.

(** ** Availability *)




(** ** Retention *)

(** C9, as the code has it. One sweep keeps, in each of the five collections
    that it prunes, exactly the elements younger than the window (one hour
    for the cpu, memory and disk samples, one day for the alerts, seven days
    for the recovery records), unchanged and in their order; it removes the
    elements whose age is the window or more; it leaves the response and
    error histories alone. *)
Theorem cleanupOldMetrics_keeps_younger (m : monitor) :
  let m' := cleanupOldMetrics m in
  cpu (metrics m') =
    filter (fun x => (now m - cpu_timestamp x < 3600000)%Z) (cpu (metrics m)) /\
  memory (metrics m') =
    filter (fun x => (now m - mem_timestamp x < 3600000)%Z) (memory (metrics m)) /\
  disk (metrics m') =
    filter (fun x => (now m - disk_timestamp x < 3600000)%Z) (disk (metrics m)) /\
  alerts m' =
    filter (fun a => (now m - alert_timestamp a < 86400000)%Z) (alerts m) /\
  recoveryActions m' =
    filter (fun r => (now m - rec_timestamp r < 604800000)%Z) (recoveryActions m) /\
  cpu (metrics m') `sublist_of` cpu (metrics m) /\
  memory (metrics m') `sublist_of` memory (metrics m) /\
  disk (metrics m') `sublist_of` disk (metrics m) /\
  alerts m' `sublist_of` alerts m /\
  recoveryActions m' `sublist_of` recoveryActions m /\
  responseTimes (metrics m') = responseTimes (metrics m) /\
  errors (metrics m') = errors (metrics m).
Proof.
  cbn zeta. unfold cleanupOldMetrics. cbn.
  repeat split; try (apply list_filter_iff; intros; lia); apply sublist_filter.
Qed.

(** C9, counterexample. A cpu sample taken at clock 0 is exactly one hour
    old, not older, at clock 3600000; the sweep that runs then removes it. *)
Lemma cleanupOldMetrics_removes_sample_aged_one_hour :
  let m := set_now 3600000 (checkCPU scenario_world (constructor 0)).2 in
  cpu_timestamp <$> cpu (metrics m) = [0%Z] /\
  (now m - 0 = 3600000)%Z /\
  ~ (3600000 < now m - 0)%Z /\
  cpu (metrics (cleanupOldMetrics m)) = [].
Proof. cbn zeta. repeat split; by vm_compute. Qed.

(** ** Sampling *)

(** C4, as the code has it. The CPU and the memory check always append one
    sample to their own list and return the value they measured (the stored
    usage is the returned one rounded to two decimals). The disk check does
    so when [df] answers with a second line of at least five fields, and
    stores nothing when it rejects. The network and the process check return
    what they parsed and store nothing: the store has no list for them. *)
Theorem checks_store_and_return (w : world) (m : monitor) :
  (exists usage cores,
      (checkCPU w m).1 = Fulfilled (CpuResult usage cores) /\
      metrics (checkCPU w m).2 =
        set_cpu (cpu (metrics m) ++
                 [ {| cpu_timestamp := now m; cpu_usage := JS.toFixed2 usage;
                      cpu_cores := cores |} ]) (metrics m)) /\
  (exists usage total used free,
      (checkMemory w m).1 = Fulfilled (MemoryResult usage total used free) /\
      metrics (checkMemory w m).2 =
        set_memory (memory (metrics m) ++
                    [ {| mem_timestamp := now m; mem_usage := JS.toFixed2 usage;
                         mem_total := formatBytes total; mem_used := formatBytes used;
                         mem_free := formatBytes free |} ]) (metrics m)) /\
  (forall out line p4,
      exec w (tick m) "df -h /" = ExecOk out ->
      JS.split newline (JS.trim out) !! 1%nat = Some line ->
      JS.split_ws line !! 4%nat = Some p4 ->
      exists total used available,
        (checkDisk w m).1 =
          Fulfilled (DiskResult (JS.parseInt (JS.remove_first "%" p4)) total used available) /\
        metrics (checkDisk w m).2 =
          set_disk (disk (metrics m) ++
                    [ {| disk_timestamp := finished_at w (tick m);
                         disk_usage := JS.parseInt (JS.remove_first "%" p4);
                         disk_total := total; disk_used := used;
                         disk_available := available |} ]) (metrics m)) /\
  (forall reason, (checkDisk w m).1 = Rejected reason ->
                  metrics (checkDisk w m).2 = metrics m) /\
  metrics (checkNetwork w m).2 = metrics m /\
  (forall out, exec w (tick m) "netstat -i" = ExecOk out ->
     (checkNetwork w m).1 =
       Fulfilled (NetworkResult
                    (omap parse_interface (drop 1 (JS.split newline (JS.trim out)))))) /\
  metrics (checkProcesses w m).2 = metrics m /\
  (forall out, exec w (tick m) "ps aux" = ExecOk out ->
     exists total appProcesses,
       (checkProcesses w m).1 = Fulfilled (ProcessResult total appProcesses) /\
       total = length (omap parse_process (drop 1 (JS.split newline (JS.trim out)))) /\
       appProcesses =
         filter (fun p => is_app_process p)
                (omap parse_process (drop 1 (JS.split newline (JS.trim out))))).
Proof.
  split; [by do 2 eexists|].
  split; [by do 4 eexists|].
  split.
  { intros out line p4 Hexec Hline Hp4. unfold checkDisk.
    rewrite Hexec, Hline, Hp4. by do 3 eexists. }
  split.
  { intros reason. unfold checkDisk. by repeat case_match. }
  split; [unfold checkNetwork; by case_match|].
  split; [intros out Hexec; unfold checkNetwork; by rewrite Hexec|].
  split; [unfold checkProcesses; by case_match|].
  intros out Hexec. unfold checkProcesses. rewrite Hexec. by do 2 eexists.
Qed.

(** The disk check on the example host. *)
Lemma checks_store_and_return_witness :
  exists total used available,
    (checkDisk scenario_world (constructor 0)).1 =
      Fulfilled (DiskResult (JS.parseInt (JS.remove_first "%" "95%")) total used available) /\
    metrics (checkDisk scenario_world (constructor 0)).2 =
      set_disk (disk (metrics (constructor 0)) ++
                [ {| disk_timestamp := finished_at scenario_world (tick (constructor 0));
                     disk_usage := JS.parseInt (JS.remove_first "%" "95%");
                     disk_total := total; disk_used := used;
                     disk_available := available |} ]) (metrics (constructor 0)).
Proof.
  destruct (checks_store_and_return scenario_world (constructor 0)) as (_ & _ & H & _).
  apply (H (df_output "95%") "/dev/sda1 50G 45G 5G 95% /" "95%"); reflexivity.
Defined.

(** C4, counterexample. The network check and the process check of the
    example host return their values (two parsed lines, two processes of
    which one is the application's) and leave the store as it was: no sample
    of either category is kept anywhere. *)
Lemma checkNetwork_and_checkProcesses_store_nothing :
  let m := constructor 0 in
  (exists interfaces,
      (checkNetwork scenario_world m).1 = Fulfilled (NetworkResult interfaces) /\
      if_name <$> interfaces = ["Iface"; "eth0"]) /\
  metrics (checkNetwork scenario_world m).2 = metrics m /\
  (exists appProcesses,
      (checkProcesses scenario_world m).1 = Fulfilled (ProcessResult 2 appProcesses) /\
      p_command <$> appProcesses = ["node server.js"]) /\
  metrics (checkProcesses scenario_world m).2 = metrics m.
Proof.
  cbn zeta. split; [eexists; split; by vm_compute|].
  split; [by vm_compute|].
  split; [eexists; split; by vm_compute|].
  by vm_compute.
Qed.

(** ** Every alert of the log is classified by the table *)

Section Classified.

Variable w : world.

Lemma triggerAlert_classified type data m :
  Forall classified (alerts m) ->
  Forall classified (alerts (triggerAlert w type data m).2).
Proof.
  intros H. rewrite triggerAlert_alerts. apply Forall_app. split; [done|].
  by repeat constructor.
Qed.

Lemma check_alerts m :
  alerts (checkCPU w m).2 = alerts m /\
  alerts (checkMemory w m).2 = alerts m /\
  alerts (checkDisk w m).2 = alerts m /\
  alerts (checkNetwork w m).2 = alerts m /\
  alerts (checkProcesses w m).2 = alerts m.
Proof.
  unfold checkCPU, checkMemory, checkDisk, checkNetwork, checkProcesses.
  repeat split; by repeat case_match.
Qed.

Lemma analyzeMetrics_classified r m :
  Forall classified (alerts m) -> Forall classified (alerts (analyzeMetrics w r m)).
Proof.
  intros H. unfold analyzeMetrics.
  repeat case_match;
    rewrite ?cleanupDisk_alerts, ?cleanupMemory_alerts;
    repeat (apply triggerAlert_classified;
            rewrite ?cleanupDisk_alerts, ?cleanupMemory_alerts);
    done.
Qed.

Lemma acknowledge_all_classified refs l :
  Forall classified l -> Forall classified (acknowledge_all refs l).
Proof.
  revert l. induction refs as [|i refs IH]; intros l H; [done|].
  cbn [acknowledge_all foldl]. apply IH. by apply Forall_alter.
Qed.

Lemma attemptAutoRecovery_classified m :
  Forall classified (alerts m) -> Forall classified (alerts (attemptAutoRecovery w m)).
Proof.
  intros H. unfold attemptAutoRecovery. rewrite recover_all_alerts.
  by apply acknowledge_all_classified.
Qed.

Lemma performSystemCheck_classified m m' :
  performSystemCheck w m = Some m' ->
  Forall classified (alerts m) -> Forall classified (alerts m').
Proof.
  unfold performSystemCheck. intros Hrun H.
  destruct (check_alerts m) as (H1 & _).
  destruct (checkCPU w m) as [r1 m1].
  destruct (check_alerts m1) as (_ & H2 & _).
  destruct (checkMemory w m1) as [r2 m2].
  destruct (check_alerts m2) as (_ & _ & H3 & _).
  destruct (checkDisk w m2) as [r3 m3].
  destruct (check_alerts m3) as (_ & _ & _ & H4 & _).
  destruct (checkNetwork w m3) as [r4 m4].
  destruct (check_alerts m4) as (_ & _ & _ & _ & H5).
  destruct (checkProcesses w m4) as [r5 m5].
  cbn [fst snd] in *.
  destruct (existsb _ _); [done|]. injection Hrun as <-.
  apply attemptAutoRecovery_classified.
  assert (H0 : Forall classified (alerts m5)) by by rewrite H5, H4, H3, H2, H1.
  cbn [foldl]. unfold analyzeSettled.
  repeat case_match; repeat apply analyzeMetrics_classified; done.
Qed.

Lemma checkServices_classified m :
  Forall classified (alerts m) -> Forall classified (alerts (checkServices w m)).
Proof.
  intros H.
  destruct (checkServices_loop w (services (config m)) m) as (new & _ & Ha & _ & Hnew & _).
  unfold checkServices. rewrite Ha. apply Forall_app. split; [done|].
  eapply Forall2_Forall_l; [exact Hnew|].
  apply Forall_forall. intros s _ a (Ht & Hs & _). unfold classified.
  by rewrite Ht, Hs.
Qed.

Lemma checkEndpoint_classified e m :
  Forall classified (alerts m) -> Forall classified (alerts (checkEndpoint w e m)).
Proof.
  intros H. unfold checkEndpoint.
  repeat case_match; repeat apply triggerAlert_classified; done.
Qed.

Lemma checkEndpoints_classified m :
  Forall classified (alerts m) -> Forall classified (alerts (checkEndpoints w m)).
Proof.
  unfold checkEndpoints. generalize (endpoints (config m)). intros es. revert m.
  induction es as [|e es IH]; intros m H; [done|].
  cbn [foldl]. by apply IH, checkEndpoint_classified.
Qed.

Lemma cleanupOldMetrics_classified m :
  Forall classified (alerts m) -> Forall classified (alerts (cleanupOldMetrics m)).
Proof.
  intros H. unfold cleanupOldMetrics. cbn.
  rewrite Forall_forall in *. intros a Ha.
  apply list_elem_of_filter in Ha as [_ Ha]. by apply H.
Qed.

Lemma run_task_classified k m :
  Forall classified (alerts m) -> Forall classified (alerts (run_task w k m)).
Proof.
  intros H. destruct k as [started cmd cb|due s]; cbn [run_task].
  - unfold run_callback. by repeat case_match.
  - unfold verifyRestart.
    destruct (probe_frame w s m) as (Ha & _).
    destruct (probe w s m) as [[] m1]; cbn [fst snd] in *.
    + by rewrite Ha.
    + apply triggerAlert_classified. by rewrite Ha.
Qed.

Lemma run_pending_classified t m :
  Forall classified (alerts m) -> Forall classified (alerts (run_pending w t m)).
Proof.
  unfold run_pending. intros H.
  assert (H0 : Forall classified (alerts (set_pending [] (set_now t m)))) by done.
  revert H0. generalize (set_pending [] (set_now t m)). generalize (pending m).
  intros ks. induction ks as [|k ks IH]; intros acc Hacc; [done|].
  cbn [foldl]. apply IH. destruct (ready t k); [|done].
  by apply run_task_classified.
Qed.

Lemma task_step_classified m m' :
  task_step w m m' ->
  Forall classified (alerts m) -> Forall classified (alerts m').
Proof.
  intros Hstep H. destruct Hstep as [t m m' Hrun|t m|t m|t m|t m].
  - by apply (performSystemCheck_classified (set_now t m)).
  - by apply checkServices_classified.
  - by apply checkEndpoints_classified.
  - by apply cleanupOldMetrics_classified.
  - by apply run_pending_classified.
Qed.

Lemma reachable_classified t0 m :
  reachable w t0 m -> Forall classified (alerts m).
Proof.
  unfold reachable. revert m.
  apply (rtc_ind_r (fun m => Forall classified (alerts m))).
  - constructor.
  - intros m1 m2 _ Hstep IH. by apply (task_step_classified m1).
Qed.

End Classified.

(** ** Severity *)



(** ** What each operation leaves alone *)

Section Untouched.

Variable w : world.

Lemma triggerAlert_untouched type data m :
  metrics (triggerAlert w type data m).2 = metrics m /\
  config (triggerAlert w type data m).2 = config m /\
  pending (triggerAlert w type data m).2 = pending m /\
  arrays (triggerAlert w type data m).2 = arrays m.
Proof. done. Qed.

Lemma cleanupMemory_untouched m :
  metrics (cleanupMemory w m) = metrics m /\ config (cleanupMemory w m) = config m.
Proof. unfold cleanupMemory. by destruct (existsSync _ _ _). Qed.

Lemma cleanupDisk_untouched m :
  metrics (cleanupDisk w m) = metrics m /\ config (cleanupDisk w m) = config m.
Proof. unfold cleanupDisk. by repeat destruct (existsSync _ _ _). Qed.

Lemma restartApplication_untouched m :
  metrics (restartApplication w m) = metrics m /\
  config (restartApplication w m) = config m /\
  pending (restartApplication w m) = pending m.
Proof.
  unfold restartApplication, executeCommand. by repeat destruct (exec _ _ _).
Qed.

Lemma recover_untouched type m :
  metrics (recover w type m) = metrics m /\ config (recover w type m) = config m.
Proof.
  unfold recover.
  destruct (cleanupDisk_untouched m), (cleanupMemory_untouched m),
    (restartApplication_untouched m) as (? & ? & _).
  by repeat case_match.
Qed.

Lemma recover_all_untouched refs m :
  metrics (recover_all w refs m) = metrics m /\
  config (recover_all w refs m) = config m.
Proof.
  revert m. induction refs as [|i refs IH]; intros m; [done|].
  cbn [recover_all]. destruct (alerts m !! i) as [a|]; [|apply IH].
  destruct (IH (set_alerts (alter acknowledge i (alerts (recover w (alert_type a) m)))
                  (recover w (alert_type a) m))) as [-> ->].
  apply recover_untouched.
Qed.

Lemma attemptAutoRecovery_untouched m :
  metrics (attemptAutoRecovery w m) = metrics m /\
  config (attemptAutoRecovery w m) = config m.
Proof. apply recover_all_untouched. Qed.

Lemma analyzeMetrics_untouched r m :
  metrics (analyzeMetrics w r m) = metrics m /\
  config (analyzeMetrics w r m) = config m.
Proof.
  pose proof (fun m => proj1 (cleanupDisk_untouched m)) as Hd1.
  pose proof (fun m => proj2 (cleanupDisk_untouched m)) as Hd2.
  pose proof (fun m => proj1 (cleanupMemory_untouched m)) as Hm1.
  pose proof (fun m => proj2 (cleanupMemory_untouched m)) as Hm2.
  unfold analyzeMetrics.
  repeat case_match;
    repeat first [ rewrite Hd1 | rewrite Hd2 | rewrite Hm1 | rewrite Hm2
                 | progress cbn -[cleanupDisk cleanupMemory] ];
    done.
Qed.

Lemma probe_untouched s m :
  metrics (probe w s m).2 = metrics m /\ arrays (probe w s m).2 = arrays m.
Proof.
  unfold probe, checkServiceCommand, checkServicePort. by repeat case_match.
Qed.

Lemma restartService_untouched s m :
  metrics (restartService w s m) = metrics m.
Proof. unfold restartService, executeCommand. by destruct (exec _ _ _). Qed.

Lemma checkService_untouched s m :
  metrics (checkService w s m) = metrics m.
Proof.
  rewrite checkService_unfold.
  destruct (probe_untouched s m) as [Hm _].
  destruct (probe w s m) as [[] m1]; cbn [fst snd] in *; [done|].
  by rewrite restartService_untouched.
Qed.

Lemma checkServices_untouched m :
  metrics (checkServices w m) = metrics m.
Proof.
  unfold checkServices. generalize (services (config m)). intros ss. revert m.
  induction ss as [|s ss IH]; intros m; [done|].
  cbn [foldl]. by rewrite IH, checkService_untouched.
Qed.

Lemma verifyRestart_untouched s m :
  metrics (verifyRestart w s m) = metrics m /\
  recoveryActions (verifyRestart w s m) = recoveryActions m /\
  pending (verifyRestart w s m) = pending m /\
  arrays (verifyRestart w s m) = arrays m.
Proof.
  unfold verifyRestart.
  destruct (probe_frame w s m) as (_ & Hr & _ & Hp).
  destruct (probe_untouched s m) as [Hm Harr].
  by destruct (probe w s m) as [[] m1].
Qed.

Lemma run_task_untouched k m :
  metrics (run_task w k m) = metrics m /\
  recoveryActions (run_task w k m) = recoveryActions m /\
  pending (run_task w k m) = pending m.
Proof.
  destruct k as [started cmd cb|due s]; cbn [run_task].
  - unfold run_callback. by repeat case_match.
  - destruct (verifyRestart_untouched s m) as (? & ? & ? & _). done.
Qed.

(** The callbacks and the timers never touch the samples, the histories or
    the recovery records. *)
Lemma run_pending_untouched t m :
  metrics (run_pending w t m) = metrics m /\
  recoveryActions (run_pending w t m) = recoveryActions m.
Proof.
  unfold run_pending.
  change (metrics m) with (metrics (set_pending [] (set_now t m))).
  change (recoveryActions m) with (recoveryActions (set_pending [] (set_now t m))).
  generalize (set_pending [] (set_now t m)). generalize (pending m).
  intros ks. induction ks as [|k ks IH]; intros acc; [done|].
  cbn [foldl]. destruct (IH (if ready t k then run_task w k (set_now t acc)
                             else push_pending k acc)) as [-> ->].
  destruct (ready t k); [|done].
  by destruct (run_task_untouched k (set_now t acc)) as (-> & -> & _).
Qed.

Lemma checks_untouched m :
  responseTimes (metrics (checkCPU w m).2) = responseTimes (metrics m) /\
  errors (metrics (checkCPU w m).2) = errors (metrics m) /\
  responseTimes (metrics (checkMemory w m).2) = responseTimes (metrics m) /\
  errors (metrics (checkMemory w m).2) = errors (metrics m) /\
  responseTimes (metrics (checkDisk w m).2) = responseTimes (metrics m) /\
  errors (metrics (checkDisk w m).2) = errors (metrics m).
Proof.
  unfold checkCPU, checkMemory, checkDisk. repeat split; by repeat case_match.
Qed.

End Untouched.

(** ** Endpoint checks *)

Lemma reachable_invariant (w : world) (t0 : Z) (P : monitor -> Prop) :
  P (constructor t0) ->
  (forall m m', task_step w m m' -> P m -> P m') ->
  forall m, reachable w t0 m -> P m.
Proof.
  intros Hinit Hstep. unfold reachable.
  apply (rtc_ind_r P); [done|]. intros m1 m2 _ Hs IH. by apply (Hstep m1).
Qed.

(** X1. A response of status below 500 is appended to the history of its
    endpoint and to no other; the error histories stay as they are; the check
    raises HIGH_RESPONSE_TIME when the response took longer than the
    threshold and ENDPOINT_ERROR when the status is 400 or more, in this
    order, and nothing else. *)
Theorem checkEndpoint_records_response
    (w : world) (e : endpoint) (m : monitor) (status : Z) (elapsed : Q) :
  http_get w (tick m) (url e) = HttpResponse status elapsed ->
  (status < 500)%Z ->
  let m' := checkEndpoint w e m in
  let entry := {| resp_timestamp := finished_at w (tick m);
                  resp_time := elapsed; resp_status := status |} in
  responseTimes (metrics m') !! ep_name e =
    Some (default [] (responseTimes (metrics m) !! ep_name e) ++ [entry]) /\
  (forall other, other <> ep_name e ->
                 responseTimes (metrics m') !! other = responseTimes (metrics m) !! other) /\
  errors (metrics m') = errors (metrics m) /\
  alert_type <$> new_alerts m m' =
    (if JS.gt (JS.Num elapsed) (JS.Num (th_responseTime (alertThresholds (config m))))
     then ["HIGH_RESPONSE_TIME"] else []) ++
    (if decide (400 <= status)%Z then ["ENDPOINT_ERROR"] else []).
Proof.
  intros Hget Hlt m' entry. subst m' entry.
  unfold checkEndpoint, axios_get, new_alerts. rewrite Hget, decide_True by done.
  destruct (JS.gt _ _), (decide (400 <= status)%Z); cbn;
    rewrite ?lookup_insert_eq;
    (split; [done|]);
    (split; [intros other Hne; by rewrite lookup_insert_ne|]);
    (split; [done|]);
    by rewrite <- ?app_assoc, ?drop_app_length, ?drop_all.
Qed.

(** A slow 404 of the backend endpoint. *)
Lemma checkEndpoint_records_response_witness :
  let w := {| exec := exec scenario_world; finished_at := finished_at scenario_world;
              connect := connect scenario_world; existsSync := existsSync scenario_world;
              random := random scenario_world; cpus := cpus scenario_world;
              totalmem := totalmem scenario_world; freemem := freemem scenario_world;
              http_get := fun _ _ => HttpResponse 404 6000;
              status_message := status_message scenario_world;
              app_dir := app_dir scenario_world |} in
  alert_type <$> new_alerts (constructor 0) (checkEndpoint w backend_api (constructor 0))
  = ["HIGH_RESPONSE_TIME"; "ENDPOINT_ERROR"].
Proof.
  cbn zeta.
  refine (proj2 (proj2 (proj2 (checkEndpoint_records_response _ backend_api
                                 (constructor 0) 404 6000 _ _)))).
  - reflexivity.
  - reflexivity.
Defined.

(** X2. A request that fails, or that is answered with a status of 500 or
    more, leaves the response histories as they are, appends one entry to the
    error history of its endpoint and raises one ENDPOINT_DOWN alert, which
    is critical and not acknowledged. *)
Theorem checkEndpoint_records_failure (w : world) (e : endpoint) (m : monitor) :
  match http_get w (tick m) (url e) with
  | HttpResponse status _ => (500 <= status)%Z
  | HttpFailure _ => True
  end ->
  let m' := checkEndpoint w e m in
  responseTimes (metrics m') = responseTimes (metrics m) /\
  (exists msg,
      errors (metrics m') !! ep_name e =
        Some (default [] (errors (metrics m) !! ep_name e) ++
              [ {| err_timestamp := finished_at w (tick m); err_error := msg |} ])) /\
  (forall other, other <> ep_name e ->
                 errors (metrics m') !! other = errors (metrics m) !! other) /\
  exists a, alerts m' = alerts m ++ [a] /\ alert_type a = "ENDPOINT_DOWN" /\
            alert_severity a = critical /\ acknowledged a = false /\
            alert_timestamp a = finished_at w (tick m).
Proof.
  intros Hget m'. subst m'. unfold checkEndpoint, axios_get.
  destruct (http_get w (tick m) (url e)) as [status elapsed|msg].
  - rewrite decide_False by lia. cbn. rewrite lookup_insert_eq.
    repeat split; [by eexists| |by eexists].
    intros other Hne. by rewrite lookup_insert_ne.
  - cbn. rewrite lookup_insert_eq.
    repeat split; [by eexists| |by eexists].
    intros other Hne. by rewrite lookup_insert_ne.
Qed.

(** The backend answers 503. *)
Lemma checkEndpoint_records_failure_witness :
  let w := {| exec := exec scenario_world; finished_at := finished_at scenario_world;
              connect := connect scenario_world; existsSync := existsSync scenario_world;
              random := random scenario_world; cpus := cpus scenario_world;
              totalmem := totalmem scenario_world; freemem := freemem scenario_world;
              http_get := fun _ _ => HttpResponse 503 20;
              status_message := status_message scenario_world;
              app_dir := app_dir scenario_world |} in
  responseTimes (metrics (checkEndpoint w backend_api (constructor 0)))
  = responseTimes (metrics (constructor 0)).
Proof.
  cbn zeta.
  refine (proj1 (checkEndpoint_records_failure _ backend_api (constructor 0) _)).
  by vm_compute.
Defined.

(** ** The histories over the life of the monitor *)

Section Histories.

Variable w : world.

Lemma performSystemCheck_unfold m :
  let c1 := checkCPU w m in
  let c2 := checkMemory w c1.2 in
  let c3 := checkDisk w c2.2 in
  let c4 := checkNetwork w c3.2 in
  let c5 := checkProcesses w c4.2 in
  let results := [c1.1; c2.1; c3.1; c4.1; c5.1] in
  performSystemCheck w m =
  if existsb is_uncaught results then None
  else Some (attemptAutoRecovery w (foldl (analyzeSettled w) c5.2 results)).
Proof.
  unfold performSystemCheck.
  destruct (checkCPU w m) as [r1 m1]; cbn [fst snd].
  destruct (checkMemory w m1) as [r2 m2]; cbn [fst snd].
  destruct (checkDisk w m2) as [r3 m3]; cbn [fst snd].
  destruct (checkNetwork w m3) as [r4 m4]; cbn [fst snd].
  by destruct (checkProcesses w m4) as [r5 m5].
Qed.

Lemma checkNetwork_metrics m : metrics (checkNetwork w m).2 = metrics m.
Proof. unfold checkNetwork. by case_match. Qed.

Lemma checkProcesses_metrics m : metrics (checkProcesses w m).2 = metrics m.
Proof. unfold checkProcesses. by case_match. Qed.

Lemma analyzeSettled_untouched m r :
  metrics (analyzeSettled w m r) = metrics m /\
  config (analyzeSettled w m r) = config m.
Proof. destruct r; cbn; [apply analyzeMetrics_untouched|done|done]. Qed.

Lemma analysis_untouched rs m :
  metrics (foldl (analyzeSettled w) m rs) = metrics m /\
  config (foldl (analyzeSettled w) m rs) = config m.
Proof.
  revert m. induction rs as [|r rs IH]; intros m; [done|]. cbn [foldl].
  destruct (IH (analyzeSettled w m r)) as [-> ->]. apply analyzeSettled_untouched.
Qed.

(** A completed system check leaves the samples as the five checks left
    them: the evaluation and the sweep do not touch the store. *)
Lemma performSystemCheck_metrics m m' :
  performSystemCheck w m = Some m' ->
  metrics m' =
  metrics (checkDisk w (checkMemory w (checkCPU w m).2).2).2.
Proof.
  rewrite performSystemCheck_unfold. cbn zeta.
  destruct (existsb _ _); [done|]. intros Hm. apply (inj Some) in Hm. rewrite <- Hm.
  etransitivity; [apply attemptAutoRecovery_untouched|].
  etransitivity; [apply analysis_untouched|].
  etransitivity; [apply checkProcesses_metrics|].
  apply checkNetwork_metrics.
Qed.

Lemma performSystemCheck_histories m m' :
  performSystemCheck w m = Some m' ->
  responseTimes (metrics m') = responseTimes (metrics m) /\
  errors (metrics m') = errors (metrics m).
Proof.
  intros H. rewrite (performSystemCheck_metrics m m' H).
  destruct (checks_untouched w (checkMemory w (checkCPU w m).2).2) as (_ & _ & _ & _ & -> & ->).
  destruct (checks_untouched w (checkCPU w m).2) as (_ & _ & -> & -> & _).
  by destruct (checks_untouched w m) as (-> & -> & _).
Qed.

(** Only the endpoint check changes the response histories. *)
Lemma task_step_responseTimes m m' :
  task_step w m m' ->
  responseTimes (metrics m') = responseTimes (metrics m) \/
  exists t, m' = checkEndpoints w (set_now t m).
Proof.
  intros [t m0 m0' Hrun|t m0|t m0|t m0|t m0].
  - left. by destruct (performSystemCheck_histories _ _ Hrun) as [-> _].
  - left. by rewrite checkServices_untouched.
  - right. by exists t.
  - by left.
  - left. by rewrite (proj1 (run_pending_untouched w t m0)).
Qed.

Lemma checkEndpoint_below_500 e m :
  responses_below_500 m -> responses_below_500 (checkEndpoint w e m).
Proof.
  unfold responses_below_500, checkEndpoint, axios_get. intros H.
  destruct (http_get w (tick m) (url e)) as [status elapsed|msg]; [|done].
  destruct (decide (status < 500)%Z) as [Hlt|Hge]; [|done].
  assert (Hins : map_Forall (fun _ l => Forall (fun r => (resp_status r < 500)%Z) l)
            (<[ep_name e :=
                 default [] (responseTimes (metrics m) !! ep_name e) ++
                 [ {| resp_timestamp := finished_at w (tick m);
                      resp_time := elapsed; resp_status := status |} ]]>
               (responseTimes (metrics m)))).
  { apply map_Forall_insert_2; [|done].
    apply Forall_app. split; [|by repeat constructor].
    destruct (responseTimes (metrics m) !! ep_name e) as [l|] eqn:Hl; [|constructor].
    by apply (H _ _ Hl). }
  by repeat case_match.
Qed.

Lemma checkEndpoints_below_500 m :
  responses_below_500 m -> responses_below_500 (checkEndpoints w m).
Proof.
  unfold checkEndpoints. generalize (endpoints (config m)). intros es. revert m.
  induction es as [|e es IH]; intros m H; [done|].
  cbn [foldl]. by apply IH, checkEndpoint_below_500.
Qed.

Lemma checkEndpoint_unanswered e m :
  never_answers w ->
  responseTimes (metrics (checkEndpoint w e m)) = responseTimes (metrics m).
Proof.
  intros Hw. specialize (Hw (tick m) (url e)).
  unfold checkEndpoint, axios_get.
  destruct (http_get w (tick m) (url e)) as [status elapsed|msg]; [|done].
  by rewrite decide_False by lia.
Qed.

Lemma checkEndpoints_unanswered m :
  never_answers w ->
  responseTimes (metrics (checkEndpoints w m)) = responseTimes (metrics m).
Proof.
  intros Hw. unfold checkEndpoints. generalize (endpoints (config m)).
  intros es. revert m. induction es as [|e es IH]; intros m; [done|].
  cbn [foldl]. by rewrite IH, checkEndpoint_unanswered.
Qed.

End Histories.

(** X3. In every state that the monitor can reach, every response kept in the
    histories has a status below 500: an answer of 500 or more is never
    counted as a response, it is an outage. *)
Theorem recorded_statuses_below_500
    (w : world) (t0 : Z) (m : monitor) (name : string) (l : list response) (r : response) :
  reachable w t0 m ->
  responseTimes (metrics m) !! name = Some l ->
  r ∈ l ->
  (resp_status r < 500)%Z.
Proof.
  intros Hreach.
  assert (Hinv : responses_below_500 m); [|intros Hl Hr].
  { revert m Hreach. apply reachable_invariant.
    - unfold responses_below_500. cbn. apply map_Forall_empty.
    - intros m m' Hstep Hm.
      destruct (task_step_responseTimes w m m' Hstep) as [Heq|[t ->]].
      + unfold responses_below_500. by rewrite Heq.
      + by apply checkEndpoints_below_500. }
  specialize (Hinv name l Hl). rewrite Forall_forall in Hinv. by apply Hinv.
Qed.

(** One round of endpoint checks on the example host. *)
Lemma recorded_statuses_below_500_witness :
  (resp_status {| resp_timestamp := 0; resp_time := 10; resp_status := 200 |} < 500)%Z.
Proof.
  apply (recorded_statuses_below_500 scenario_world 0
           (checkEndpoints scenario_world (set_now 0 (constructor 0))) "Backend API"
           [ {| resp_timestamp := 0; resp_time := 10; resp_status := 200 |} ]).
  - apply rtc_once, step_endpoint_check.
  - by vm_compute.
  - apply list_elem_of_here.
Defined.

(** X4. On a host whose endpoints are never answered with a status below
    500, the response histories stay empty in every state that the monitor
    can reach, and the report lists no endpoint at all: an endpoint that is
    always down is absent from the availability figures, it is not shown at
    zero. *)
Theorem unanswered_endpoints_absent_from_report (w : world) (t0 : Z) (m : monitor) :
  never_answers w ->
  reachable w t0 m ->
  responseTimes (metrics m) = ∅ /\
  report_endpoints (getHealthReport m) = ∅.
Proof.
  intros Hw Hreach.
  assert (Hempty : responseTimes (metrics m) = ∅).
  { revert m Hreach. apply reachable_invariant; [done|].
    intros m m' Hstep Hm.
    destruct (task_step_responseTimes w m m' Hstep) as [Heq|[t ->]].
    - by rewrite Heq.
    - by rewrite checkEndpoints_unanswered. }
  split; [done|]. cbn [report_endpoints getHealthReport].
  rewrite Hempty. apply omap_empty.
Qed.

(** Two rounds of endpoint checks on a host whose requests time out. *)
Lemma unanswered_endpoints_absent_from_report_witness :
  report_endpoints
    (getHealthReport
       (checkEndpoints unreachable_world
          (set_now 15000 (checkEndpoints unreachable_world (set_now 0 (constructor 0))))))
  = ∅.
Proof.
  refine (proj2 (unanswered_endpoints_absent_from_report unreachable_world 0 _ _ _)).
  - intros n u. exact I.
  - eapply rtc_l; [apply step_endpoint_check|]. apply rtc_once, step_endpoint_check.
Defined.

(** ** Restarts that fail *)

(** X5. When the restart command of a service fails, [restartService] adds
    one record with success false and the error message, raises no alert and
    schedules no verification: from a state without queued tasks, no later
    turn of the event loop raises an alert for this attempt. *)
Theorem restartService_command_failure
    (w : world) (s : service) (m : monitor) (msg : string) :
  exec w (tick m) (restart s) = ExecError msg ->
  let m' := restartService w s m in
  recoveryActions m' =
    recoveryActions m ++
    [ {| action := service_restart; rec_service := Some (name s);
         rec_timestamp := finished_at w (tick m); rec_actions := None;
         success := false; rec_error := Some msg |} ] /\
  alerts m' = alerts m /\
  pending m' = pending m /\
  (pending m = [] -> forall t, alerts (run_pending w t m') = alerts m).
Proof.
  intros Hexec m'. subst m'. unfold restartService, executeCommand.
  rewrite Hexec. repeat split. intros Hp t. unfold run_pending. cbn.
  by rewrite Hp.
Qed.

(** The restart of a service whose restart command is refused. *)
Lemma restartService_command_failure_witness :
  let w := {| exec := fun _ _ => ExecError "Failed to restart redis.service";
              finished_at := finished_at scenario_world;
              connect := connect scenario_world; existsSync := existsSync scenario_world;
              random := random scenario_world; cpus := cpus scenario_world;
              totalmem := totalmem scenario_world; freemem := freemem scenario_world;
              http_get := http_get scenario_world;
              status_message := status_message scenario_world;
              app_dir := app_dir scenario_world |} in
  alerts (run_pending w 20000 (restartService w redis (constructor 0))) = [].
Proof.
  cbn zeta.
  refine (proj2 (proj2 (proj2 (restartService_command_failure _ redis (constructor 0)
                                 "Failed to restart redis.service" _))) _ 20000%Z);
    reflexivity.
Defined.

(** X6. [restartApplication] adds exactly one record, of action
    application_restart; its success is true exactly when both the stop and
    the start command end without error. When the stop command fails, the
    start command is not run and the record carries the error of the stop
    command. *)
Theorem restartApplication_success_iff (w : world) (m : monitor) :
  exists r,
    recoveryActions (restartApplication w m) = recoveryActions m ++ [r] /\
    action r = application_restart /\
    (success r = true <->
     exists out1 out2,
       exec w (tick m) "pm2 stop all" = ExecOk out1 /\
       exec w (S (S (tick m))) "pm2 start all" = ExecOk out2) /\
    (forall msg, exec w (tick m) "pm2 stop all" = ExecError msg ->
                 rec_error r = Some msg /\ tick (restartApplication w m) = S (tick m)) /\
    (success r = false -> exists msg, rec_error r = Some msg).
Proof.
  unfold restartApplication, executeCommand.
  destruct (exec w (tick m) "pm2 stop all") as [out1|msg1] eqn:Hstop; cbn.
  - destruct (exec w (S (S (tick m))) "pm2 start all") as [out2|msg2] eqn:Hstart; cbn.
    + eexists. split; [done|]. split; [done|]. cbn.
      split; [split; [eauto|done]|]. split; [done|done].
    + eexists. split; [done|]. split; [done|]. cbn.
      split; [split; [done|by intros (? & ? & _ & ?)]|].
      split; [done|eauto].
  - eexists. split; [done|]. split; [done|]. cbn.
    split; [split; [done|by intros (? & ? & ? & _)]|].
    split; [|eauto]. intros msg Hmsg. by injection Hmsg as ->.
Qed.

(** ** The event loop *)

Lemma run_pending_fold (w : world) (t : Z) (ks : list task) (acc : monitor) :
  let m' := foldl (fun acc k => if ready t k then run_task w k (set_now t acc)
                                else push_pending k acc) acc ks in
  pending m' = pending acc ++ filter (fun k => ready t k = false) ks /\
  exists new,
    alerts m' = alerts acc ++ new /\
    Forall (fun a => alert_type a = "SERVICE_RESTART_FAILED" /\
                     alert_severity a = critical /\ acknowledged a = false) new /\
    (length new <= length (filter (fun k => ready t k = true) ks))%nat.
Proof.
  revert acc. induction ks as [|k ks IH]; intros acc; cbn zeta.
  - rewrite app_nil_r. split; [done|]. exists []. by rewrite app_nil_r.
  - cbn [foldl]. rewrite !filter_cons.
    destruct (IH (if ready t k then run_task w k (set_now t acc)
                  else push_pending k acc)) as (Hp & new & Ha & Hnew & Hlen).
    rewrite Hp, Ha. destruct (ready t k) eqn:Hready.
    + rewrite decide_False by done. rewrite decide_True by done.
      destruct (run_task_untouched w k (set_now t acc)) as (_ & _ & ->).
      split; [done|].
      destruct k as [started cmd cb|due s]; cbn [run_task].
      * exists new. split; [|split; [done|cbn; lia]].
        unfold run_callback. by repeat case_match.
      * unfold verifyRestart.
        destruct (probe_frame w s (set_now t acc)) as (Hpa & _).
        destruct (probe w s (set_now t acc)) as [[] m1]; cbn [fst snd] in *.
        -- exists new. rewrite Hpa. split; [done|]. split; [done|cbn; lia].
        -- eexists (_ :: new). rewrite triggerAlert_alerts, Hpa, <- app_assoc.
           split; [done|]. split; [by constructor|cbn; lia].
    + rewrite decide_True by done. rewrite decide_False by done.
      cbn. rewrite <- app_assoc. split; [done|]. by exists new.
Qed.


(** ** Sweeps that have nothing to do *)

Lemma select_from_none {A : Type} (p : A -> bool) (k : nat) (l : list A) :
  Forall (fun a => p a = false) l -> select_from p k l = [].
Proof.
  intros H. revert k. induction H as [|a l Ha _ IH]; intros k; [done|].
  cbn [select_from]. by rewrite Ha, IH.
Qed.

(** X8. After a sweep that ran at clock T, no alert of the log is selected at
    any clock up to T, and an alert that the sweep acknowledged is selected
    at no clock at all; a sweep that finds no selected alert changes nothing,
    so a second sweep at the same clock does nothing. *)
Theorem attemptAutoRecovery_settles (w : world) (m : monitor) :
  let m' := attemptAutoRecovery w m in
  (forall t, (t <= now m)%Z -> Forall (fun a => ~ selected t a) (alerts m')) /\
  (forall i a, alerts m !! i = Some a -> selected (now m) a ->
               exists a', alerts m' !! i = Some a' /\ forall t, ~ selected t a') /\
  (Forall (fun a => ~ selected (now m) a) (alerts m) -> m' = m) /\
  attemptAutoRecovery w (set_now (now m) m') = set_now (now m) m'.
Proof.
  cbn zeta.
  assert (Hlook : forall i a', alerts (attemptAutoRecovery w m) !! i = Some a' ->
            exists a, alerts m !! i = Some a /\
              ((selected (now m) a /\ a' = acknowledge a) \/
               (~ selected (now m) a /\ a' = a))).
  { intros i a'. unfold attemptAutoRecovery.
    rewrite recover_all_alerts, acknowledge_all_lookup.
    destruct (alerts m !! i) as [a|] eqn:Hi; [|done]. cbn. intros [= <-].
    exists a. split; [done|].
    case_decide as Hin.
    - left. apply elem_of_select_from in Hin as (a0 & _ & Hi0 & Hp).
      rewrite Nat.sub_0_r, Hi in Hi0. injection Hi0 as <-. split; [|done].
      by apply needs_recovery_selected.
    - right. split; [|done]. intros Hs. apply Hin.
      apply elem_of_select_from. exists a. rewrite Nat.sub_0_r.
      split; [lia|]. split; [done|]. by apply needs_recovery_selected. }
  assert (Hnone : forall m0, Forall (fun a => ~ selected (now m0) a) (alerts m0) ->
                             attemptAutoRecovery w m0 = m0).
  { intros m0 H. unfold attemptAutoRecovery. rewrite select_from_none; [done|].
    eapply Forall_impl; [exact H|]. intros a Ha. cbn beta in Ha.
    destruct (needs_recovery (now m0) a) eqn:Hp; [|done].
    by apply needs_recovery_selected in Hp. }
  assert (Hsettled : forall t, (t <= now m)%Z ->
            Forall (fun a => ~ selected t a) (alerts (attemptAutoRecovery w m))).
  { intros t Ht. apply Forall_lookup. intros i a' Hi.
    destruct (Hlook i a' Hi) as (a & _ & [[_ ->]|[Hns ->]]).
    - intros (_ & Hack & _). done.
    - intros (Hc & Hack & Hage). apply Hns. repeat split; [done|done|lia]. }
  split; [done|]. split.
  { intros i a Hi Hs. unfold attemptAutoRecovery.
    exists (acknowledge a). split.
    - rewrite recover_all_alerts, acknowledge_all_lookup, Hi. cbn.
      rewrite decide_True; [done|].
      apply elem_of_select_from. exists a. rewrite Nat.sub_0_r.
      split; [lia|]. split; [done|]. by apply needs_recovery_selected.
    - by intros t (_ & Hack & _). }
  split; [apply Hnone|].
  apply Hnone. cbn. by apply Hsettled.
Qed.

(** The sweep over the two old disk alerts. *)
Lemma attemptAutoRecovery_settles_witness :
  exists a', alerts (attemptAutoRecovery scenario_world two_disk_alerts) !! 0%nat = Some a' /\
             forall t, ~ selected t a'.
Proof.
  destruct (attemptAutoRecovery_settles scenario_world two_disk_alerts) as (_ & H & _).
  eapply (H 0%nat); [reflexivity|]. by vm_compute.
Defined.

(** ** Retention sweeps *)

(** X9. Two retention sweeps in a row amount to the later one: a sweep at
    clock t2 after a sweep at an earlier clock t1 leaves the state that the
    sweep at t2 alone leaves; in particular a sweep repeated at the same
    clock changes nothing more. *)
Theorem cleanupOldMetrics_absorbs_earlier (m : monitor) (t1 t2 : Z) :
  (t1 <= t2)%Z ->
  cleanupOldMetrics (set_now t2 (cleanupOldMetrics (set_now t1 m))) =
  cleanupOldMetrics (set_now t2 m).
Proof.
  intros Ht. unfold cleanupOldMetrics. cbn.
  unfold set_recoveryActions, set_alerts, set_metrics, set_disk, set_memory, set_cpu.
  cbn. rewrite !list_filter_filter.
  f_equal; [f_equal|..]; apply list_filter_iff; intros x; lia.
Qed.

Lemma cleanupOldMetrics_absorbs_earlier_witness :
  cleanupOldMetrics (set_now 7200000 (cleanupOldMetrics (set_now 3600000 ten_checks))) =
  cleanupOldMetrics (set_now 7200000 ten_checks).
Proof. apply cleanupOldMetrics_absorbs_earlier. lia. Defined.

(** X10. A retention sweep does not change what the report says about the
    last hour: the hourly averages of cpu, memory and disk usage, the
    availability of every endpoint and the numbers of alerts and of recovery
    records of the last hour are the same before and after the sweep. *)
Theorem report_unchanged_by_sweep (m : monitor) :
  let before := getHealthReport m in
  let after := getHealthReport (cleanupOldMetrics m) in
  average_usage (system_cpu after) = average_usage (system_cpu before) /\
  average_usage (system_memory after) = average_usage (system_memory before) /\
  average_usage (system_disk after) = average_usage (system_disk before) /\
  report_endpoints after = report_endpoints before /\
  alerts_lastHour after = alerts_lastHour before /\
  recovery_lastHour after = recovery_lastHour before.
Proof.
  cbn zeta. unfold getHealthReport, cleanupOldMetrics. cbn.
  rewrite !list_filter_filter.
  repeat split; repeat f_equal; apply list_filter_iff; intros x; lia.
Qed.

(** ** Formatting *)

Lemma formatBytes_loop_spec (fuel : nat) (v : Q) (i : nat) :
  (i + fuel = 4)%nat ->
  (i <= (formatBytes_loop fuel v i).2 <= 4)%nat /\
  ((formatBytes_loop fuel v i).1 *
     inject_Z (1024 ^ Z.of_nat ((formatBytes_loop fuel v i).2 - i)) == v)%Q /\
  (((formatBytes_loop fuel v i).2 < 4)%nat -> ((formatBytes_loop fuel v i).1 < 1024)%Q) /\
  ((1 <= v)%Q -> (1 <= (formatBytes_loop fuel v i).1)%Q) /\
  ((i < (formatBytes_loop fuel v i).2)%nat -> (1 <= (formatBytes_loop fuel v i).1)%Q).
Proof.
  revert v i. induction fuel as [|fuel IH]; intros v i Hi; cbn [formatBytes_loop].
  - cbn [fst snd]. rewrite Nat.sub_diag. cbn.
    repeat split; try lia; try done. by rewrite Qmult_1_r.
  - destruct (Qle_bool 1024 v && (i <? length units - 1)%nat) eqn:Hcond.
    + apply andb_true_iff in Hcond as [Hv Hlt]. apply Qle_bool_iff in Hv.
      destruct (IH (v / 1024)%Q (S i)) as (Hrange & Hscale & Hsmall & Hone & _); [lia|].
      set (v' := (formatBytes_loop fuel (v / 1024) (S i)).1) in *.
      set (i' := (formatBytes_loop fuel (v / 1024) (S i)).2) in *.
      assert (H1 : (1 <= v / 1024)%Q).
      { apply Qle_shift_div_l; [reflexivity|]. by rewrite Qmult_1_l. }
      split; [lia|]. split.
      * replace (i' - i)%nat with (S (i' - S i)) by lia.
        rewrite Nat2Z.inj_succ, Z.pow_succ_r by lia.
        rewrite inject_Z_mult, (Qmult_comm (inject_Z 1024)), Qmult_assoc, Hscale.
        rewrite Qmult_comm. apply Qmult_div_r. discriminate.
      * split; [done|]. split; intros _; by apply Hone.
    + cbn [fst snd]. rewrite Nat.sub_diag. cbn.
      split; [lia|]. split; [by rewrite Qmult_1_r|].
      split; [|split; [done|lia]].
      intros Hi4. apply andb_false_iff in Hcond as [Hv|Hlt].
      * apply Qnot_le_lt. intros Hle. apply Qle_bool_iff in Hle. congruence.
      * apply Nat.ltb_ge in Hlt. cbn in Hlt. lia.
Qed.

(** X11. [formatBytes] always finds a unit among B, KB, MB, GB and TB: the
    number it shows (before rounding to two decimals), multiplied by 1024 to
    the power of the rank of the unit, is the number of bytes; the number is
    below 1024 unless the unit is TB, and at least 1 unless the unit is B. *)
Theorem formatBytes_scale (bytes : Z) :
  exists (value : Q) (rank : nat),
    formatBytes bytes = (JS.toFixed2 (JS.Num value), default EmptyString (units !! rank)) /\
    (rank <= 4)%nat /\
    units !! rank = Some (formatBytes bytes).2 /\
    (value * inject_Z (1024 ^ Z.of_nat rank) == inject_Z bytes)%Q /\
    ((rank < 4)%nat -> (value < 1024)%Q) /\
    ((0 < rank)%nat -> (1 <= value)%Q).
Proof.
  destruct (formatBytes_loop_spec 4 (inject_Z bytes) 0 eq_refl)
    as (Hrange & Hscale & Hsmall & _ & Hone).
  unfold formatBytes. change (length units - 1)%nat with 4%nat.
  destruct (formatBytes_loop 4 (inject_Z bytes) 0) as [value rank].
  cbn [fst snd] in *. rewrite Nat.sub_0_r in Hscale.
  exists value, rank. split; [done|]. split; [lia|]. split; [|done].
  destruct rank as [|[|[|[|[|rank]]]]]; cbn; try done. lia.
Qed.

(** X12. The uptime text starts with the largest unit that is not zero and
    shows one more unit below it, both truncated: after days come the hours
    of the day (0 to 23), after hours the minutes (0 to 59), after minutes
    the seconds (0 to 59); the time shown is at most the uptime and less than
    one step of the smaller unit below it. *)
Theorem uptime_parts_truncates (ms : Z) :
  match uptime_parts ms with
  | UpDays d h =>
      (0 < d /\ 0 <= h < 24 /\
       d * 86400000 + h * 3600000 <= ms < d * 86400000 + (h + 1) * 3600000)%Z
  | UpHours h mi =>
      (0 < h < 24 /\ 0 <= mi < 60 /\
       h * 3600000 + mi * 60000 <= ms < h * 3600000 + (mi + 1) * 60000)%Z
  | UpMinutes mi s =>
      (0 < mi < 60 /\ 0 <= s < 60 /\
       mi * 60000 + s * 1000 <= ms < mi * 60000 + (s + 1) * 1000)%Z
  | UpSeconds s =>
      (s < 60 /\ s * 1000 <= ms < (s + 1) * 1000)%Z
  end.
Proof.
  unfold uptime_parts. repeat case_decide; Z.to_euclidean_division_equations; lia.
Qed.

(** ** Recommendations *)



(** X14. The stability recommendation is given exactly when more than five
    alerts of the log are less than an hour old, whatever the samples are. *)
Theorem generateRecommendations_stability (m : monitor) :
  (exists r, r ∈ generateRecommendations m /\ rec_type r = "stability") <->
  (5 < length (filter (fun a => (now m - alert_timestamp a < 3600000)%Z) (alerts m)))%nat.
Proof.
  unfold generateRecommendations. split.
  - intros (r & Hr & Ht).
    repeat (apply elem_of_app in Hr as [Hr|Hr];
            [ exfalso; case_match;
              [ apply list_elem_of_singleton in Hr as ->; discriminate Ht
              | by apply elem_of_nil in Hr ] | ]).
    case_bool_decide; [done|]. by apply elem_of_nil in Hr.
  - intros H. rewrite bool_decide_eq_true_2 by done.
    eexists. split;
      [do 3 (apply elem_of_app; right); apply list_elem_of_here|reflexivity].
Qed.

(** ** Samples that raise nothing *)

Lemma usage_above_quiet (u : option JS.number) (low t : Q) :
  (low <= t)%Q ->
  match u with
  | None | Some JS.NaN => True
  | Some (JS.Num q) => (q == 0)%Q \/ (q <= low)%Q
  end ->
  usage_above u t = false.
Proof.
  intros Hlow Hu. destruct u as [[q|]|]; cbn; [|done|done].
  destruct Hu as [H0|Hle].
  - apply Qeq_bool_iff in H0. by rewrite H0.
  - assert (Hq : Qle_bool q t = true)
      by (apply Qle_bool_iff; by apply (Qle_trans _ low)).
    rewrite Hq. by rewrite andb_false_r.
Qed.

(** X15. With thresholds in the order cpu, memory, disk, the evaluation of a
    check result changes nothing at all when the result has no usage (the
    network and the process results), when its usage is NaN or zero, or when
    its usage is at most the cpu threshold: no alert, no cleanup. *)
Theorem analyzeMetrics_quiet (w : world) (r : check_result) (m : monitor) :
  (th_cpu (alertThresholds (config m)) <= th_memory (alertThresholds (config m)))%Q ->
  (th_memory (alertThresholds (config m)) <= th_disk (alertThresholds (config m)))%Q ->
  match usage_of r with
  | None | Some JS.NaN => True
  | Some (JS.Num q) => (q == 0)%Q \/ (q <= th_cpu (alertThresholds (config m)))%Q
  end ->
  analyzeMetrics w r m = m.
Proof.
  intros H1 H2 Hu. unfold analyzeMetrics.
  rewrite (usage_above_quiet _ (th_cpu (alertThresholds (config m))) (th_cpu _))
    by (done || apply Qle_refl).
  rewrite (usage_above_quiet _ (th_cpu (alertThresholds (config m))) (th_memory _)) by done.
  by rewrite (usage_above_quiet _ (th_cpu (alertThresholds (config m))) (th_disk _))
    by (done || by apply (Qle_trans _ (th_memory (alertThresholds (config m))))).
Qed.

(** A memory sample of 60 percent, and the process table, on the example
    host. *)
Lemma analyzeMetrics_quiet_witness :
  analyzeMetrics scenario_world (MemoryResult (JS.Num 60) 1000 600 400) (constructor 0)
  = constructor 0 /\
  analyzeMetrics scenario_world (ProcessResult 2 []) (constructor 0) = constructor 0.
Proof.
  split; apply analyzeMetrics_quiet; cbn; try done; right; done.
Defined.


(** ** The system check and the disk check *)




(** ** Services without a probe *)

(** X17. A service whose descriptor has neither a command nor a port to probe
    (none given, an empty command, port 0) is never probed: every check of
    it, on every host, raises SERVICE_DOWN and attempts a restart. *)
Theorem checkService_without_probe (w : world) (s : service) (m : monitor) :
  truthy_string (command s) = None ->
  truthy_port (port s) = None ->
  probe w s m = (false, m) /\
  (exists a, alerts (checkService w s m) = alerts m ++ [a] /\
             alert_type a = "SERVICE_DOWN" /\ alert_service a = Some (name s)) /\
  (exists r, recoveryActions (checkService w s m) = recoveryActions m ++ [r] /\
             action r = service_restart /\ rec_service r = Some (name s)).
Proof.
  intros Hc Hp.
  assert (Hprobe : probe w s m = (false, m)) by (unfold probe; by rewrite Hc, Hp).
  split; [done|]. rewrite checkService_unfold, Hprobe. cbn [fst snd].
  set (m1 := (triggerAlert w "SERVICE_DOWN" (ServiceData (name s) (now m)) m).2).
  destruct (restartService_frame w s m1) as (Ha & _ & r & Hr & Hact & Hsvc & _).
  split.
  - rewrite Ha. subst m1. rewrite triggerAlert_alerts. by eexists.
  - exists r. by rewrite Hr.
Qed.

Lemma checkService_without_probe_witness :
  let s := {| name := "worker"; command := Some EmptyString; port := Some 0%Z;
              restart := "pm2 restart worker" |} in
  probe scenario_world s (constructor 0) = (false, constructor 0).
Proof.
  cbn zeta. by apply checkService_without_probe.
Defined.

(** ** Availability figures *)

Lemma availability_bounds (l : list response) :
  l <> [] -> (0 <= availability l <= 100)%Q.
Proof.
  intros Hne. unfold availability.
  set (successful := length (filter (fun r => (resp_status r < 400)%Z) l)).
  assert (Hs : (successful <= length l)%nat) by apply length_filter.
  assert (Hn : (0 < length l)%nat) by (destruct l; [done|cbn; lia]).
  assert (Hn' : (0 < inject_Z (Z.of_nat (length l)))%Q).
  { change 0%Q with (inject_Z 0). rewrite <- Zlt_Qlt. lia. }
  assert (H0 : (0 <= inject_Z (Z.of_nat successful) / inject_Z (Z.of_nat (length l)))%Q).
  { apply Qle_shift_div_l; [done|]. rewrite Qmult_0_l.
    change 0%Q with (inject_Z 0). rewrite <- Zle_Qle. lia. }
  assert (H1 : (inject_Z (Z.of_nat successful) / inject_Z (Z.of_nat (length l)) <= 1)%Q).
  { apply Qle_shift_div_r; [done|]. rewrite Qmult_1_l. rewrite <- Zle_Qle. lia. }
  split; lra.
Qed.

(** X18. Every availability figure of the report lies between 0 and 100. *)
Theorem report_availability_bounds (m : monitor) (name : string) (q : Q) :
  report_endpoints (getHealthReport m) !! name = Some q ->
  (0 <= q <= 100)%Q.
Proof.
  cbn [report_endpoints getHealthReport]. rewrite lookup_omap.
  destruct (responseTimes (metrics m) !! name) as [responses|]; [|done]. cbn.
  unfold endpoint_availability. case_bool_decide as Hlen; [|done].
  intros [= <-]. apply availability_bounds. intros Hnil. rewrite Hnil in Hlen.
  cbn in Hlen. lia.
Qed.

Lemma report_availability_bounds_witness :
  (0 <= inject_Z (Z.of_nat 8) / inject_Z (Z.of_nat 10) * 100 <= 100)%Q.
Proof.
  apply (report_availability_bounds ten_checks "Backend API"). by vm_compute.
Defined.

(** ** The status line *)

Section Listed.

Variable w : world.

Lemma triggerAlert_listed type data m :
  type ∈ listed_types ->
  Forall listed (alerts m) -> Forall listed (alerts (triggerAlert w type data m).2).
Proof.
  intros Ht H. rewrite triggerAlert_alerts. apply Forall_app. split; [done|].
  apply Forall_cons. split; [exact Ht|constructor].
Qed.

Local Ltac listed_type := apply (bool_decide_unpack _); by vm_compute.

Lemma analyzeMetrics_listed r m :
  Forall listed (alerts m) -> Forall listed (alerts (analyzeMetrics w r m)).
Proof.
  intros H. unfold analyzeMetrics.
  repeat case_match;
    rewrite ?cleanupDisk_alerts, ?cleanupMemory_alerts;
    repeat (apply triggerAlert_listed; [listed_type|];
            rewrite ?cleanupDisk_alerts, ?cleanupMemory_alerts);
    done.
Qed.

Lemma acknowledge_all_listed refs l :
  Forall listed l -> Forall listed (acknowledge_all refs l).
Proof.
  revert l. induction refs as [|i refs IH]; intros l H; [done|].
  cbn [acknowledge_all foldl]. apply IH. by apply Forall_alter.
Qed.

Lemma performSystemCheck_listed m m' :
  performSystemCheck w m = Some m' ->
  Forall listed (alerts m) -> Forall listed (alerts m').
Proof.
  rewrite performSystemCheck_unfold. cbn zeta.
  destruct (existsb _ _); [done|]. intros Hm H. apply (inj Some) in Hm. rewrite <- Hm.
  unfold attemptAutoRecovery. rewrite recover_all_alerts.
  apply acknowledge_all_listed.
  assert (H5 : Forall listed
                 (alerts (checkProcesses w
                            (checkNetwork w
                               (checkDisk w (checkMemory w (checkCPU w m).2).2).2).2).2)).
  { destruct (check_alerts w (checkNetwork w
                (checkDisk w (checkMemory w (checkCPU w m).2).2).2).2) as (_ & _ & _ & _ & ->).
    destruct (check_alerts w (checkDisk w (checkMemory w (checkCPU w m).2).2).2)
      as (_ & _ & _ & -> & _).
    destruct (check_alerts w (checkMemory w (checkCPU w m).2).2) as (_ & _ & -> & _).
    destruct (check_alerts w (checkCPU w m).2) as (_ & -> & _).
    by destruct (check_alerts w m) as (-> & _). }
  revert H5. generalize (checkProcesses w
    (checkNetwork w (checkDisk w (checkMemory w (checkCPU w m).2).2).2).2).2.
  generalize [(checkCPU w m).1; (checkMemory w (checkCPU w m).2).1;
              (checkDisk w (checkMemory w (checkCPU w m).2).2).1;
              (checkNetwork w (checkDisk w (checkMemory w (checkCPU w m).2).2).2).1;
              (checkProcesses w
                 (checkNetwork w (checkDisk w (checkMemory w (checkCPU w m).2).2).2).2).1].
  intros rs. induction rs as [|r rs IH]; intros acc Hacc; [done|].
  cbn [foldl]. apply IH. destruct r; cbn; [by apply analyzeMetrics_listed|done|done].
Qed.

Lemma checkServices_listed m :
  Forall listed (alerts m) -> Forall listed (alerts (checkServices w m)).
Proof.
  intros H.
  destruct (checkServices_loop w (services (config m)) m) as (new & _ & Ha & _ & Hnew & _).
  unfold checkServices. rewrite Ha. apply Forall_app. split; [done|].
  eapply Forall2_Forall_l; [exact Hnew|].
  apply Forall_forall. intros s _ a (Ht & _). unfold listed. rewrite Ht. listed_type.
Qed.

Lemma checkEndpoints_listed m :
  Forall listed (alerts m) -> Forall listed (alerts (checkEndpoints w m)).
Proof.
  unfold checkEndpoints. generalize (endpoints (config m)). intros es. revert m.
  induction es as [|e es IH]; intros m H; [done|].
  cbn [foldl]. apply IH. unfold checkEndpoint.
  repeat case_match; repeat (apply triggerAlert_listed; [listed_type|]); done.
Qed.

Lemma run_pending_listed t m :
  Forall listed (alerts m) -> Forall listed (alerts (run_pending w t m)).
Proof.
  intros H.
  destruct (run_pending_fold w t (pending m) (set_pending [] (set_now t m)))
    as (_ & new & Ha & Hnew & _).
  unfold run_pending. rewrite Ha. apply Forall_app. split; [done|].
  eapply Forall_impl; [exact Hnew|]. intros a (Ht & _). unfold listed. rewrite Ht.
  listed_type.
Qed.

Lemma reachable_listed t0 m : reachable w t0 m -> Forall listed (alerts m).
Proof.
  revert m. apply (reachable_invariant w t0 (fun m => Forall listed (alerts m)));
    [constructor|].
  intros m1 m2 [t m0 m0' Hrun|t m0|t m0|t m0|t m0] H.
  - by apply (performSystemCheck_listed (set_now t m0)).
  - by apply checkServices_listed.
  - by apply checkEndpoints_listed.
  - unfold cleanupOldMetrics. cbn. rewrite Forall_forall in *. intros a Ha.
    apply list_elem_of_filter in Ha as [_ Ha]. by apply H.
  - by apply run_pending_listed.
Qed.

End Listed.

Lemma listed_classified_not_info (a : alert) :
  listed a -> classified a -> alert_severity a = warning \/ alert_severity a = critical.
Proof.
  unfold listed, classified, listed_types. intros Ht ->.
  repeat (apply elem_of_cons in Ht as [->|Ht]; [vm_compute; by auto|]).
  by apply elem_of_nil in Ht.
Qed.

Lemma count_by_severity (l : list alert) :
  Forall (fun a => alert_severity a = warning \/ alert_severity a = critical) l ->
  (length (filter (fun a => alert_severity a = critical) l) +
   length (filter (fun a => alert_severity a = warning) l) = length l)%nat.
Proof.
  induction 1 as [|a l Ha _ IH]; [done|].
  rewrite !filter_cons.
  destruct Ha as [Ha|Ha]; repeat case_decide; cbn; try lia; congruence.
Qed.

(** X19. In every state that the monitor can reach, the type of every alert
    of the log is one of the eight types of the severity table, so that no
    alert has the default severity info: the status line counts every alert
    either as critical or as warning. *)
Theorem logStatus_counts_every_alert (w : world) (t0 : Z) (m : monitor) :
  reachable w t0 m ->
  Forall (fun a => alert_type a ∈ listed_types /\ alert_severity a <> info) (alerts m) /\
  (status_alerts_critical (logStatus m) + status_alerts_warning (logStatus m)
   = status_alerts_total (logStatus m))%nat.
Proof.
  intros Hreach.
  pose proof (reachable_listed w t0 m Hreach) as Hl.
  pose proof (reachable_classified w t0 m Hreach) as Hc.
  assert (Hsev : Forall (fun a => alert_severity a = warning \/ alert_severity a = critical)
                        (alerts m)).
  { rewrite Forall_forall in *. intros a Ha.
    by apply listed_classified_not_info; [apply Hl|apply Hc]. }
  split.
  - rewrite Forall_forall in *. intros a Ha. split; [by apply Hl|].
    destruct (Hsev a Ha) as [-> | ->]; done.
  - cbn. by apply count_by_severity.
Qed.

(** The log after a service check and a turn of the event loop on the host
    whose redis is down. *)
Lemma logStatus_counts_every_alert_witness :
  let m := run_pending redis_down_world 15000
             (checkServices redis_down_world (set_now 0 (constructor 0))) in
  (status_alerts_critical (logStatus m) + status_alerts_warning (logStatus m)
   = status_alerts_total (logStatus m))%nat.
Proof.
  cbn zeta.
  refine (proj2 (logStatus_counts_every_alert redis_down_world 0 _ _)).
  eapply rtc_l; [apply step_service_check|]. apply rtc_once, step_callbacks.
Defined.

(** ** Usage figures *)

Lemma percent_bounds (x y : Q) :
  (0 <= x)%Q -> (x <= y)%Q -> (0 < y)%Q -> (0 <= x / y * 100 <= 100)%Q.
Proof.
  intros Hx Hxy Hy.
  assert (H0 : (0 <= x / y)%Q) by (apply Qle_shift_div_l; [done|lra]).
  assert (H1 : (x / y <= 1)%Q) by (apply Qle_shift_div_r; [done|lra]).
  split; lra.
Qed.

Lemma Qeq_bool_pos (q : Q) : (0 < q)%Q -> Qeq_bool q 0 = false.
Proof.
  intros Hq. destruct (Qeq_bool q 0) eqn:E; [|done].
  apply Qeq_bool_iff in E. rewrite E in Hq. by apply Qlt_irrefl in Hq.
Qed.

Lemma div_by_positive (x y : Q) :
  (0 < y)%Q -> JS.div (JS.Num x) (JS.Num y) = JS.Num (x / y).
Proof. intros Hy. unfold JS.div. by rewrite (Qeq_bool_pos _ Hy). Qed.

Lemma tick_sums (cs : list cpu_times) (a b : Z) :
  Forall counters_nonneg cs -> (0 <= b <= a)%Z ->
  (0 <= foldl (fun acc c => acc + idle c) b cs
     <= foldl (fun acc c => acc + sum_times c) a cs)%Z /\
  (a <= foldl (fun acc c => acc + sum_times c) a cs)%Z.
Proof.
  intros H. revert a b. induction H as [|c cs Hc _ IH]; intros a b Hab; cbn [foldl].
  - lia.
  - unfold counters_nonneg in Hc.
    destruct (IH (a + sum_times c) (b + idle c))%Z as [H1 H2];
      unfold sum_times in *; lia.
Qed.

Lemma tick_sums_pos (cs : list cpu_times) (a : Z) :
  Forall counters_nonneg cs -> (0 <= a)%Z ->
  Exists (fun c => 0 < sum_times c)%Z cs ->
  (0 < foldl (fun acc c => acc + sum_times c) a cs)%Z.
Proof.
  intros H Ha Hex. revert a Ha. induction Hex as [c cs Hc|c cs _ IH]; intros a Ha;
    cbn [foldl]; apply Forall_cons in H as [Hn Hcs].
  - destruct (tick_sums cs (a + sum_times c) 0 Hcs) as [_ H2]; lia.
  - apply IH; [done|]. unfold counters_nonneg, sum_times in *. lia.
Qed.

(** X20. When the tick counters of the cores are not negative and some core
    has ticked, the CPU check returns a usage between 0 and 100; when the
    host reports no core at all, the usage is NaN. *)
Theorem checkCPU_usage_range (w : world) (m : monitor) :
  (Forall counters_nonneg (cpus w (tick m)) ->
   Exists (fun c => 0 < sum_times c)%Z (cpus w (tick m)) ->
   exists u, (checkCPU w m).1 =
               Fulfilled (CpuResult (JS.Num u) (length (cpus w (tick m)))) /\
             (0 <= u <= 100)%Q) /\
  (cpus w (tick m) = [] -> (checkCPU w m).1 = Fulfilled (CpuResult JS.NaN 0)).
Proof.
  split.
  - intros Hn Hex. unfold checkCPU. cbv zeta. cbn [fst].
    set (cs := cpus w (tick m)) in *.
    set (T := foldl (fun acc c => (acc + sum_times c)%Z) 0%Z cs).
    set (I := foldl (fun acc c => (acc + idle c)%Z) 0%Z cs).
    destruct (tick_sums cs 0 0 Hn) as [HI _]; [lia|]. fold T I in HI.
    pose proof (tick_sums_pos cs 0 Hn (Z.le_refl 0) Hex) as HT. fold T in HT.
    assert (Hlen : (0 < Z.of_nat (length cs))%Z).
    { destruct Hex; cbn [length]; lia. }
    assert (Hn' : (0 < inject_Z (Z.of_nat (length cs)))%Q).
    { change 0%Q with (inject_Z 0). rewrite <- Zlt_Qlt. lia. }
    assert (Ha : (0 < inject_Z T / inject_Z (Z.of_nat (length cs)))%Q).
    { apply Qlt_shift_div_l; [done|]. rewrite Qmult_0_l.
      change 0%Q with (inject_Z 0). rewrite <- Zlt_Qlt. lia. }
    assert (Hb : (0 <= inject_Z I / inject_Z (Z.of_nat (length cs)))%Q).
    { apply Qle_shift_div_l; [done|]. rewrite Qmult_0_l.
      change 0%Q with (inject_Z 0). rewrite <- Zle_Qle. lia. }
    assert (Hba : (inject_Z I / inject_Z (Z.of_nat (length cs))
                   <= inject_Z T / inject_Z (Z.of_nat (length cs)))%Q).
    { unfold Qdiv. apply Qmult_le_compat_r; [rewrite <- Zle_Qle; lia|].
      apply Qinv_le_0_compat. by apply Qlt_le_weak. }
    unfold JS.of_Z, JS.of_nat. rewrite !(div_by_positive _ _ Hn').
    cbn [JS.sub]. rewrite (div_by_positive _ _ Ha). cbn [JS.mul].
    eexists. split; [reflexivity|].
    apply percent_bounds; [lra|lra|done].
  - intros Hnil. unfold checkCPU. by rewrite Hnil.
Qed.

Lemma checkCPU_usage_range_witness :
  exists u, (checkCPU scenario_world (constructor 0)).1 = Fulfilled (CpuResult (JS.Num u) 1) /\
            (0 <= u <= 100)%Q.
Proof.
  apply (checkCPU_usage_range scenario_world (constructor 0)).
  - repeat constructor; by vm_compute.
  - apply Exists_cons_hd. by vm_compute.
Defined.



(** ** Memory cleanup *)


(** ** The payment reference *)

Section Strings.

Import FNBEFTService.

Lemma length_string_app (s1 s2 : string) :
  String.length (s1 ++ s2)%string = (String.length s1 + String.length s2)%nat.
Proof.
  induction s1 as [|c s1 IH]; [done|].
  change (S (String.length (s1 ++ s2)%string) = S (String.length s1 + String.length s2)).
  by rewrite IH.
Qed.

Lemma length_string_drop (n : nat) (s : string) :
  String.length (string_drop n s) = (String.length s - n)%nat.
Proof.
  revert s. induction n as [|n IH]; intros [|c s]; simpl; try done; try lia.
Qed.

Lemma length_string_take (n : nat) (s : string) :
  String.length (string_take n s) = (n `min` String.length s)%nat.
Proof.
  revert s. induction n as [|n IH]; intros [|c s]; simpl; try done. by rewrite IH.
Qed.

Lemma length_toUpperCase (s : string) :
  String.length (toUpperCase s) = String.length s.
Proof. induction s as [|c s IH]; simpl; [done|]. by rewrite IH. Qed.

Lemma string_take_drop (n : nat) (s : string) :
  (string_take n s ++ string_drop n s)%string = s.
Proof.
  revert s. induction n as [|n IH]; intros [|c s]; simpl; try done.
  change (String c (string_take n s ++ string_drop n s)%string = String c s).
  f_equal. apply IH.
Qed.

Lemma starts_with_app (p s : string) : JS.starts_with p (p ++ s)%string = true.
Proof.
  induction p as [|c p IH]; [done|].
  change (Ascii.eqb c c && JS.starts_with p (p ++ s)%string = true).
  by rewrite Ascii.eqb_refl, IH.
Qed.

End Strings.

(** X23. The payment reference starts with JOBAPP followed by the last four
    characters of the applicant id (the whole id when it is shorter); it is
    between 6 and 20 characters long, and an id of four characters or more
    contributes exactly four. *)
Theorem generatePaymentReference_shape (now : Z) (random36 applicantId : string) :
  let reference := FNBEFTService.generatePaymentReference now random36 applicantId in
  JS.starts_with ("JOBAPP" ++ FNBEFTService.slice_last 4 applicantId)%string reference = true /\
  (6 <= String.length reference <= 20)%nat /\
  (exists front, applicantId = (front ++ FNBEFTService.slice_last 4 applicantId)%string) /\
  String.length (FNBEFTService.slice_last 4 applicantId) = (4 `min` String.length applicantId)%nat.
Proof.
  cbn zeta. unfold FNBEFTService.generatePaymentReference, FNBEFTService.slice_last.
  split.
  { apply (starts_with_app
             ("JOBAPP" ++ FNBEFTService.string_drop (String.length applicantId - 4)
                            applicantId)%string
             (FNBEFTService.string_drop (String.length (pretty now) - 6) (pretty now) ++
              FNBEFTService.toUpperCase (FNBEFTService.substr 2 4 random36))%string). }
  split.
  { rewrite !length_string_app, !length_string_drop, length_toUpperCase.
    unfold FNBEFTService.substr. rewrite length_string_take. cbn [String.length]. lia. }
  split.
  { exists (FNBEFTService.string_take (String.length applicantId - 4) applicantId).
    by rewrite string_take_drop. }
  rewrite length_string_drop. lia.
Qed.
